(** * FKS Futures service: bootstrap and resilient wiring

    A shallow embedding of [src/main.py].  The module is a straight-line
    script: it configures logging, tries to import the health router,
    builds the FastAPI application, tries to set up a Prometheus registry
    with the [fks_build_info] gauge and its [/metrics] route, includes the
    health router when there is one, registers the startup hook and the
    root endpoint, and (when run as a script) hands the application to
    uvicorn on the port read from [SERVICE_PORT].

    The script's collaborators (the import system, prometheus_client,
    FastAPI/Starlette routing, logging) are modelled just far enough to
    run the script: each statement that can raise is given an outcome by
    the [World] the script runs in. *)

From Stdlib Require Import ZArith Ascii String List Lia.
From stdpp Require Import base list strings gmap pretty.

Local Open Scope Z_scope.

(** ** Python: exceptions, outcomes, and a state-and-exception monad *)

Module Py.

(** The part of the built-in exception hierarchy the script can meet. *)
Inductive ExcClass :=
  | BaseException | SystemExit | KeyboardInterrupt
  | Exception | ImportError | ModuleNotFoundError
  | AttributeError | NameError | TypeError | ValueError
  | RuntimeError | OSError | PermissionError | SyntaxError
  | ArithmeticError | OverflowError.

#[global] Instance ExcClass_eq_dec : EqDecision ExcClass.
Proof. solve_decision. Defined.

(** The direct base class. *)
Definition base (c : ExcClass) : option ExcClass :=
  match c with
  | BaseException => None
  | SystemExit | KeyboardInterrupt | Exception => Some BaseException
  | ModuleNotFoundError => Some ImportError
  | PermissionError => Some OSError
  | OverflowError => Some ArithmeticError
  | ImportError | AttributeError | NameError | TypeError | ValueError
  | RuntimeError | OSError | SyntaxError | ArithmeticError => Some Exception
  end.

Fixpoint ancestors (depth : nat) (c : ExcClass) : list ExcClass :=
  c :: match depth, base c with
       | S d, Some b => ancestors d b
       | _, _ => []
       end.

(** Method resolution order; the hierarchy above is four classes deep. *)
Definition mro (c : ExcClass) : list ExcClass := ancestors 3 c.

Definition issubclass (c d : ExcClass) : bool := bool_decide (d ∈ mro c).

(** An exception instance: its class and [str(e)]. *)
Record PyExc := { exc_class : ExcClass; exc_str : string }.

Definition isinstance (e : PyExc) (c : ExcClass) : bool :=
  issubclass (exc_class e) c.

(** What a statement does: it returns a value or raises. *)
Inductive Outcome (A : Type) :=
  | Returns (a : A)
  | Raises (e : PyExc).
Arguments Returns {A} a.
Arguments Raises {A} e.

(** Statements run against a state [S]; the effects a statement had before
    it raised stay in the state. *)
Definition Exec (S A : Type) : Type := S -> Outcome A * S.

Definition ret {S A} (a : A) : Exec S A := fun s => (Returns a, s).

Definition raise {S A} (e : PyExc) : Exec S A := fun s => (Raises e, s).

Definition bind {S A B} (m : Exec S A) (k : A -> Exec S B) : Exec S B :=
  fun s =>
    match m s with
    | (Returns a, s') => k a s'
    | (Raises e, s') => (Raises e, s')
    end.

Definition modify {S} (f : S -> S) : Exec S unit := fun s => (Returns tt, f s).

(** [try: body except cls as e: handler e]. *)
Definition try_except {S A} (body : Exec S A) (cls : ExcClass)
    (handler : PyExc -> Exec S A) : Exec S A :=
  fun s =>
    match body s with
    | (Returns a, s') => (Returns a, s')
    | (Raises e, s') => if isinstance e cls then handler e s' else (Raises e, s')
    end.

(** A call into the world outside the script. *)
Definition call {S A} (o : Outcome A) : Exec S A := fun s => (o, s).

(** A statement with no result that the world may make raise. *)
Definition may_raise {S} (fault : option PyExc) : Exec S unit :=
  match fault with
  | Some e => raise e
  | None => ret tt
  end.

End Py.

Declare Scope py_scope.
Delimit Scope py_scope with py.
Notation "x <- m ;; k" := (Py.bind m (fun x => k))
  (at level 20, m at level 99, k at level 200, only parsing) : py_scope.
Notation "m ;; k" := (Py.bind m (fun _ => k))
  (at level 100, k at level 200, only parsing, right associativity) : py_scope.

(** ** Strings *)

Module Str.

Definition LF : string := String "010"%char EmptyString.
Definition DQ : string := String "034"%char EmptyString.
Definition BS : string := String "092"%char EmptyString.

(** [s.replace(c, by)] for a single character [c]. *)
Fixpoint replace_char (c : ascii) (by_ : string) (s : string) : string :=
  match s with
  | EmptyString => EmptyString
  | String a rest =>
      if Ascii.eqb a c then by_ +:+ replace_char c by_ rest
      else String a (replace_char c by_ rest)
  end.

(** [sep.join(parts)]. *)
Fixpoint join (sep : string) (parts : list string) : string :=
  match parts with
  | [] => EmptyString
  | [p] => p
  | p :: rest => p +:+ sep +:+ join sep rest
  end.

(** [needle in s]. *)
Fixpoint contains (needle s : string) : bool :=
  String.prefix needle s ||
  match s with
  | EmptyString => false
  | String _ rest => contains needle rest
  end.

Definition lower_char (a : ascii) : ascii :=
  let n := nat_of_ascii a in
  if (65 <=? n)%nat && (n <=? 90)%nat then ascii_of_nat (n + 32) else a.

Fixpoint lower (s : string) : string :=
  match s with
  | EmptyString => EmptyString
  | String a rest => String (lower_char a) (lower rest)
  end.

(** [s.find(c)] for a single character, as an index. *)
Fixpoint find_char (c : ascii) (s : string) : option nat :=
  match s with
  | EmptyString => None
  | String a rest =>
      if Ascii.eqb a c then Some 0%nat else S <$> find_char c rest
  end.

Fixpoint drop_while (p : ascii -> bool) (s : string) : string :=
  match s with
  | EmptyString => EmptyString
  | String a rest => if p a then drop_while p rest else s
  end.

(** [s.rstrip(chars)] and [s.lstrip(chars)], the set given as a predicate. *)
Definition rstrip (p : ascii -> bool) (s : string) : string :=
  String.rev (drop_while p (String.rev s)).

Definition lstrip (p : ascii -> bool) (s : string) : string := drop_while p s.

Definition ends_with (c : ascii) (s : string) : bool :=
  match String.rev s with
  | String a _ => Ascii.eqb a c
  | EmptyString => false
  end.

(** The text before the first line feed, and the text after it. *)
Fixpoint break_line (s : string) : string * option string :=
  match s with
  | EmptyString => (EmptyString, None)
  | String a rest =>
      if Ascii.eqb a "010"%char then (EmptyString, Some rest)
      else let '(l, r) := break_line rest in (String a l, r)
  end.

(** [s.splitlines()] for line-feed terminated text. *)
Fixpoint lines_fuel (fuel : nat) (s : string) : list string :=
  match fuel, s with
  | _, EmptyString => []
  | O, _ => [s]
  | S n, _ =>
      match break_line s with
      | (l, Some rest) => l :: lines_fuel n rest
      | (l, None) => [l]
      end
  end.

Definition splitlines (s : string) : list string :=
  lines_fuel (String.length s) s.

(** Insertion sort of key/value pairs by key, as [sorted(d.items())] orders
    string keys. *)
Fixpoint insert_by_key {A} (kv : string * A) (l : list (string * A)) : list (string * A) :=
  match l with
  | [] => [kv]
  | kv' :: rest =>
      if String.leb (fst kv) (fst kv') then kv :: l
      else kv' :: insert_by_key kv rest
  end.

Definition sorted_items {A} (l : list (string * A)) : list (string * A) :=
  foldr insert_by_key [] l.

Definition sorted (l : list string) : list string :=
  fst <$> sorted_items ((fun s => (s, tt)) <$> l).

End Str.

(** ** Logging *)

Module Logging.

Inductive Level := DEBUG | INFO | WARNING | ERROR | CRITICAL.

#[global] Instance Level_eq_dec : EqDecision Level.
Proof. solve_decision. Defined.

Definition levelno (l : Level) : Z :=
  match l with
  | DEBUG => 10 | INFO => 20 | WARNING => 30 | ERROR => 40 | CRITICAL => 50
  end.

Record LogRecord := { levelname : Level; message : string }.

#[global] Instance LogRecord_eq_dec : EqDecision LogRecord.
Proof. solve_decision. Defined.

(** [logging.basicConfig(level=logging.INFO, ...)]. *)
Definition basicConfig_level : Level := INFO.

Definition isEnabledFor (l : Level) : bool :=
  levelno basicConfig_level <=? levelno l.

(** A record reaches the handler when its level is enabled. *)
Definition emit (l : Level) (msg : string) (records : list LogRecord)
    : list LogRecord :=
  if isEnabledFor l then records ++ [{| levelname := l; message := msg |}]
  else records.

End Logging.

(** The state statements run against: the module's globals [G] and the
    log records written so far. *)
Record State (G : Type) := { globals : G; records : list Logging.LogRecord }.
Arguments globals {G} s.
Arguments records {G} s.

Definition set_globals {G} (f : G -> G) : Py.Exec (State G) unit :=
  Py.modify (fun s => {| globals := f (globals s); records := records s |}).

Definition get_globals {G} : Py.Exec (State G) G :=
  fun s => (Py.Returns (globals s), s).

Module logger.

Definition log {G} (l : Logging.Level) (msg : string) : Py.Exec (State G) unit :=
  Py.modify (fun s =>
    {| globals := globals s; records := Logging.emit l msg (records s) |}).

Definition info {G} (msg : string) : Py.Exec (State G) unit :=
  log Logging.INFO msg.

Definition warning {G} (msg : string) : Py.Exec (State G) unit :=
  log Logging.WARNING msg.

End logger.

(** ** prometheus_client: registry, gauge, text exposition *)

Module Prometheus.

(** A gauge and its labelled children, in creation order.  The values the
    script stores are integral floats, kept as integers. *)
Record Gauge := {
  name : string;
  documentation : string;
  labelnames : list string;
  metrics : list (list string * Z)
}.

(** A registry is its collectors in registration order;
    [CollectorRegistry()] starts with none. *)
Definition CollectorRegistry : Type := list Gauge.

Definition new_CollectorRegistry : CollectorRegistry := [].

Definition new_Gauge (n doc : string) (lbls : list string) : Gauge :=
  {| name := n; documentation := doc; labelnames := lbls; metrics := [] |}.

(** [registry.register(collector)]: a name already registered is refused
    (ValueError).  On success the collector's place in the registry is
    returned; the script's reference to the gauge is that place. *)
Definition register (g : Gauge) (reg : CollectorRegistry)
    : option (CollectorRegistry * nat) :=
  if bool_decide (name g ∈ name <$> reg) then None
  else Some (reg ++ [g], length reg).

Fixpoint assoc {A} (k : string) (l : list (string * A)) : option A :=
  match l with
  | [] => None
  | (k', v) :: rest => if String.eqb k k' then Some v else assoc k rest
  end.

(** [gauge.labels(service=..., version=...)]: the keyword names must be the label names;
    the label values are taken in the order of the label names. *)
Definition labels (g : Gauge) (kwargs : list (string * string))
    : option (list string) :=
  if bool_decide (Str.sorted (fst <$> kwargs) = Str.sorted (labelnames g))
  then Some ((fun l => default EmptyString (assoc l kwargs)) <$> labelnames g)
  else None.

Fixpoint set_value (labelvalues : list string) (v : Z)
    (children : list (list string * Z)) : list (list string * Z) :=
  match children with
  | [] => [(labelvalues, v)]
  | (lv, old) :: rest =>
      if bool_decide (lv = labelvalues) then (lv, v) :: rest
      else (lv, old) :: set_value labelvalues v rest
  end.

(** [gauge.labels(...).set(v)] on an existing or new child. *)
Definition set (labelvalues : list string) (v : Z) (g : Gauge) : Gauge :=
  {| name := name g; documentation := documentation g;
     labelnames := labelnames g;
     metrics := set_value labelvalues v (metrics g) |}.

Record Sample := {
  s_name : string;
  s_labels : list (string * string);
  s_value : Z
}.

Record Metric := {
  m_name : string;
  m_documentation : string;
  m_type : string;
  m_samples : list Sample
}.

(** [Gauge.collect()]: one sample per child, labelled by zipping the label
    names with the child's label values. *)
Definition collect_gauge (g : Gauge) : Metric :=
  {| m_name := name g;
     m_documentation := documentation g;
     m_type := "gauge";
     m_samples :=
       (fun child =>
          {| s_name := name g;
             s_labels := zip (labelnames g) (fst child);
             s_value := snd child |}) <$> metrics g |}.

Definition collect (reg : CollectorRegistry) : list Metric :=
  collect_gauge <$> reg.

(** [repr(float(d))] for an integer [d] with [|d| < 10^16]. *)
Definition repr_float (d : Z) : string := pretty d +:+ ".0".

Definition is_zero_or_dot (a : ascii) : bool :=
  Ascii.eqb a "0"%char || Ascii.eqb a "."%char.

(** [floatToGoString]: Python's repr, except that positive values with
    more than six digits before the point are written with an exponent. *)
Definition floatToGoString (d : Z) : string :=
  let s := repr_float d in
  match Str.find_char "."%char s with
  | Some dot =>
      if (0 <? d) && (6 <? dot)%nat then
        let mantissa :=
          Str.rstrip is_zero_or_dot
            (substring 0 1 s +:+ "." +:+ substring 1 (dot - 1) s
             +:+ substring (dot + 1) (String.length s) s) in
        mantissa +:+ "e+0" +:+ pretty (dot - 1)%nat
      else s
  | None => s
  end.

Definition escape_documentation (doc : string) : string :=
  Str.replace_char "010"%char (Str.BS +:+ "n")
    (Str.replace_char "092"%char (Str.BS +:+ Str.BS) doc).

Definition escape_label_value (v : string) : string :=
  Str.replace_char "034"%char (Str.BS +:+ Str.DQ)
    (Str.replace_char "010"%char (Str.BS +:+ "n")
       (Str.replace_char "092"%char (Str.BS +:+ Str.BS) v)).

Definition label_pair (kv : string * string) : string :=
  fst kv +:+ "=" +:+ Str.DQ +:+ escape_label_value (snd kv) +:+ Str.DQ.

Definition sample_line (s : Sample) : string :=
  let labelstr :=
    match s_labels s with
    | [] => EmptyString
    | _ => "{" +:+ Str.join "," (label_pair <$> Str.sorted_items (s_labels s))
           +:+ "}"
    end in
  s_name s +:+ labelstr +:+ " " +:+ floatToGoString (s_value s) +:+ Str.LF.

(** The lines one metric family contributes: HELP, TYPE, then its samples. *)
Definition family_lines (m : Metric) : list string :=
  ("# HELP " +:+ m_name m +:+ " " +:+ escape_documentation (m_documentation m)
     +:+ Str.LF)
  :: ("# TYPE " +:+ m_name m +:+ " " +:+ m_type m +:+ Str.LF)
  :: (sample_line <$> m_samples m).

(** [generate_latest(registry).decode("utf-8")]: the families of the
    registry's collectors, in registration order. *)
Definition generate_latest (reg : CollectorRegistry) : string :=
  Str.join EmptyString (mjoin (family_lines <$> collect reg)).

End Prometheus.

(** ** Starlette and FastAPI: responses, routes, dispatch *)

Module Http.

#[local] Unset Elimination Schemes.
Inductive Json :=
  | JNull
  | JBool (b : bool)
  | JInt (n : Z)
  | JStr (s : string)
  | JList (items : list Json)
  | JDict (items : list (string * Json)).
#[local] Set Elimination Schemes.

(** [d[key]] on a JSON object (Python dicts keep insertion order). *)
Definition field (key : string) (j : Json) : option Json :=
  match j with
  | JDict items => Prometheus.assoc key items
  | _ => None
  end.

Inductive Content :=
  | Content_json (j : Json)
  | Content_text (s : string)
  | Content_page (what : string)
  | Content_empty.

(** A response: status, the headers that matter here, and the content
    (the content-length header is left out). *)
Record Response := {
  status_code : Z;
  headers : list (string * string);
  content : Content
}.

Definition header (h : string) (r : Response) : option string :=
  Prometheus.assoc h (headers r).

(** Starlette's [Response.init_headers]: a text media type without a
    charset parameter gets the response's charset appended. *)
Definition content_type (media_type : string) : string :=
  if String.prefix "text/" media_type
     && negb (Str.contains "charset=" (Str.lower media_type))
  then media_type +:+ "; charset=utf-8"
  else media_type.

Definition JSONResponse (j : Json) (status : Z) : Response :=
  {| status_code := status;
     headers := [("content-type", content_type "application/json")];
     content := Content_json j |}.

Definition PlainTextResponse (text : string) (media_type : option string)
    : Response :=
  {| status_code := 200;
     headers := [("content-type", content_type (default "text/plain" media_type))];
     content := Content_text text |}.

(** FastAPI's handler for [HTTPException]. *)
Definition http_exception (status : Z) (detail : string)
    (extra : list (string * string)) : Response :=
  {| status_code := status;
     headers := ("content-type", content_type "application/json") :: extra;
     content := Content_json (JDict [("detail", JStr detail)]) |}.

(** Starlette's [ServerErrorMiddleware] answer to an endpoint that raised. *)
Definition server_error : Response :=
  {| status_code := 500;
     headers := [("content-type", content_type "text/plain")];
     content := Content_text "Internal Server Error" |}.

Definition RedirectResponse (url : string) : Response :=
  {| status_code := 307; headers := [("location", url)];
     content := Content_empty |}.

Record Request := { method : string; path : string }.

Definition GET (p : string) : Request := {| method := "GET"; path := p |}.

End Http.

(** The callables the script and its collaborators hand to the framework:
    the script's two endpoints, the pages FastAPI serves itself, and the
    endpoints of the health router, each standing for the reply it gives. *)
Inductive Endpoint :=
  | ep_root
  | ep_metrics_endpoint
  | ep_builtin (page : string)
  | ep_external (reply : Http.Response).

Inductive Hook := hook_startup_event.

Module Routing.

Record Route := {
  route_path : string;
  methods : list string;
  endpoint : Endpoint;
  tags : list string;
  include_in_schema : bool
}.

(** Paths are matched literally; path parameters are not modelled. *)
Inductive Match := NONE | PARTIAL | FULL.

Definition matches (r : Route) (req : Http.Request) : Match :=
  if String.eqb (route_path r) (Http.path req) then
    if existsb (String.eqb (Http.method req)) (methods r) then FULL else PARTIAL
  else NONE.

(** Starlette's [Router.app] loop: the first full match is taken at once;
    otherwise the first partial match is remembered. *)
Fixpoint scan (routes : list Route) (req : Http.Request)
    (partial : option Route) : Route + option Route :=
  match routes with
  | [] => inr partial
  | r :: rest =>
      match matches r req with
      | FULL => inl r
      | PARTIAL =>
          scan rest req (match partial with None => Some r | Some p => Some p end)
      | NONE => scan rest req partial
      end
  end.

Inductive Routed :=
  | Handle (r : Route)
  | MethodNotAllowed (r : Route)
  | Redirect (url : string)
  | NotFound.

Definition is_slash (a : ascii) : bool := Ascii.eqb a "/"%char.

(** The path tried by [redirect_slashes]. *)
Definition slash_variant (p : string) : string :=
  if Str.ends_with "/"%char p then Str.rstrip is_slash p else p +:+ "/".

Definition any_match (routes : list Route) (req : Http.Request) : bool :=
  existsb (fun r => match matches r req with NONE => false | _ => true end)
    routes.

Definition route (routes : list Route) (req : Http.Request) : Routed :=
  match scan routes req None with
  | inl r => Handle r
  | inr (Some r) => MethodNotAllowed r
  | inr None =>
      if negb (String.eqb (Http.path req) "/")
         && any_match routes
              {| Http.method := Http.method req;
                 Http.path := slash_variant (Http.path req) |}
      then Redirect (slash_variant (Http.path req))
      else NotFound
  end.

End Routing.

Module Fastapi.

Import Routing.

Record CORSMiddleware := {
  allow_origins : list string;
  allow_credentials : bool;
  allow_methods : list string;
  allow_headers : list string
}.

Definition paths_not_empty (rs : list Route) : bool :=
  forallb (fun r => negb (String.eqb (route_path r) EmptyString)) rs.

(** An [APIRouter] as the application sees it: its routes.  The routers
    covered are those [include_router] takes without more ado: every route
    has a path that is not empty (with no prefix, FastAPI refuses an empty
    path with FastAPIError), and the router brings no startup or shutdown
    handlers and no lifespan of its own (FastAPI would add them to the
    application's). *)
Record APIRouter := {
  router_routes : list Route;
  router_paths_not_empty : paths_not_empty router_routes = true
}.

Record FastAPI := {
  title : string;
  description : string;
  version : string;
  user_middleware : list CORSMiddleware;
  routes : list Route;
  on_startup : list Hook
}.

Definition builtin (p page : string) : Route :=
  {| route_path := p; methods := ["GET"; "HEAD"]; endpoint := ep_builtin page;
     tags := []; include_in_schema := false |}.

(** [FastAPI(title=..., description=..., version=...)]: the new application
    already serves its schema and documentation pages. *)
Definition new_FastAPI (t d v : string) : FastAPI :=
  {| title := t; description := d; version := v;
     user_middleware := [];
     routes := [ builtin "/openapi.json" "openapi";
                 builtin "/docs" "swagger_ui_html";
                 builtin "/docs/oauth2-redirect" "swagger_ui_redirect";
                 builtin "/redoc" "redoc_html" ];
     on_startup := [] |}.

Definition with_routes (f : list Route -> list Route) (a : FastAPI) : FastAPI :=
  {| title := title a; description := description a; version := version a;
     user_middleware := user_middleware a;
     routes := f (routes a);
     on_startup := on_startup a |}.

(** [app.add_middleware(...)] puts the middleware in front. *)
Definition add_middleware (m : CORSMiddleware) (a : FastAPI) : FastAPI :=
  {| title := title a; description := description a; version := version a;
     user_middleware := m :: user_middleware a;
     routes := routes a;
     on_startup := on_startup a |}.

(** [@app.get(path, include_in_schema=...)]. *)
Definition get (p : string) (in_schema : bool) (e : Endpoint) (a : FastAPI)
    : FastAPI :=
  with_routes (fun rs => rs ++ [ {| route_path := p; methods := ["GET"];
                                    endpoint := e; tags := [];
                                    include_in_schema := in_schema |} ]) a.

Definition included (extra_tags : list string) (r : Route) : Route :=
  {| route_path := route_path r; methods := methods r; endpoint := endpoint r;
     tags := extra_tags ++ tags r;
     include_in_schema := include_in_schema r |}.

(** [app.include_router(router, tags=...)], for the routers described at
    [APIRouter]: every route of the router is added to the application,
    the given tags first. *)
Definition include_router (router : APIRouter) (extra_tags : list string)
    (a : FastAPI) : FastAPI :=
  with_routes (fun rs => rs ++ (included extra_tags <$> router_routes router)) a.

(** [@app.on_event("startup")]. *)
Definition on_event_startup (h : Hook) (a : FastAPI) : FastAPI :=
  {| title := title a; description := description a; version := version a;
     user_middleware := user_middleware a;
     routes := routes a;
     on_startup := on_startup a ++ [h] |}.

(** The keys of a dict filled by inserting [l] in order: each key once,
    at the place of its first insertion. *)
Fixpoint dict_keys (seen l : list string) : list string :=
  match l with
  | [] => []
  | k :: rest =>
      if bool_decide (k ∈ seen) then dict_keys seen rest
      else k :: dict_keys (k :: seen) rest
  end.

(** A route contributes to the schema when it is in the schema and has a
    method to describe. *)
Definition in_schema (r : Route) : bool :=
  include_in_schema r && negb (bool_decide (methods r = [])).

(** The paths of the generated OpenAPI schema: [get_openapi] goes through
    the routes in order and files each contributing route under its path
    in the [paths] dict. *)
Definition openapi_paths (a : FastAPI) : list string :=
  dict_keys []
    (route_path <$> filter (fun r => in_schema r = true) (routes a)).

End Fastapi.

(** ** The script [src/main.py] *)

Module Main.

Import Py Routing Fastapi.
Local Open Scope py_scope.

(** The statements of the metrics block (lines 46 to 64), each of which the
    world can make raise. *)
Inductive MetricsStep :=
  | import_prometheus_client
  | import_PlainTextResponse
  | call_CollectorRegistry
  | call_Gauge
  | call_labels_set
  | decorate_metrics_endpoint
  | log_registered.

#[global] Instance MetricsStep_eq_dec : EqDecision MetricsStep.
Proof. solve_decision. Defined.

(** What the script finds around it: the outcome of
    [from api.routes.health import router] and, for each statement of the
    metrics block, the exception it raises there, if any. *)
Record World := {
  health_module : Outcome APIRouter;
  metrics_fault : MetricsStep -> option PyExc
}.

(** The module's global names.  [health_router] holds the router or Python's
    [None]; the two metrics names are unbound ([None] here) until their
    assignment runs.  The gauge object lives in the registry, and
    [_build_info] refers to it by its place there. *)
Record Globals := {
  health_router : option APIRouter;
  app : FastAPI;
  _metrics_registry : option Prometheus.CollectorRegistry;
  _build_info : option nat
}.

Definition set_app (f : FastAPI -> FastAPI) (g : Globals) : Globals :=
  {| health_router := health_router g; app := f (app g);
     _metrics_registry := _metrics_registry g; _build_info := _build_info g |}.

Definition set_metrics_registry (r : Prometheus.CollectorRegistry)
    (g : Globals) : Globals :=
  {| health_router := health_router g; app := app g;
     _metrics_registry := Some r; _build_info := _build_info g |}.

Definition set_build_info (h : nat) (g : Globals) : Globals :=
  {| health_router := health_router g; app := app g;
     _metrics_registry := _metrics_registry g; _build_info := Some h |}.

Definition name_error (n : string) : PyExc :=
  {| exc_class := NameError; exc_str := "name '" +:+ n +:+ "' is not defined" |}.

Definition value_error (msg : string) : PyExc :=
  {| exc_class := ValueError; exc_str := msg |}.

(** Reading a global that may be unbound. *)
Definition read {A} (n : string) (field : Globals -> option A)
    : Exec (State Globals) A :=
  g <- get_globals ;;
  match field g with
  | Some a => ret a
  | None => raise (name_error n)
  end.

(** Lines 23 to 27. *)
Definition import_health_router (w : World)
    : Exec (State unit) (option APIRouter) :=
  try_except
    (router <- call (health_module w) ;; ret (Some router))
    ImportError
    (fun _ => logger.warning "Could not import health router" ;; ret None).

(** Lines 29 to 42. *)
Definition create_app : FastAPI :=
  add_middleware
    {| allow_origins := ["*"]; allow_credentials := true;
       allow_methods := ["*"]; allow_headers := ["*"] |}
    (new_FastAPI "FKS Futures Trading Service"
       "Futures market analysis and signal generation for CME Group futures contracts"
       "1.0.0").

(** Lines 59 to 63. *)
Definition metrics_endpoint : Exec (State Globals) Http.Response :=
  reg <- read "_metrics_registry" _metrics_registry ;;
  ret (Http.PlainTextResponse (Prometheus.generate_latest reg)
         (Some "text/plain; version=0.0.4; charset=utf-8")).

(** Lines 49 to 55: the gauge registers itself in the registry it is given. *)
Definition create_build_info : Exec (State Globals) unit :=
  reg <- read "_metrics_registry" _metrics_registry ;;
  match Prometheus.register
          (Prometheus.new_Gauge "fks_build_info"
             "Build information for the service" ["service"; "version"]) reg with
  | Some (reg', h) =>
      set_globals (set_metrics_registry reg') ;;
      set_globals (set_build_info h)
  | None => raise (value_error "Duplicated timeseries in CollectorRegistry")
  end.

(** Line 56. *)
Definition set_build_info_labels : Exec (State Globals) unit :=
  h <- read "_build_info" _build_info ;;
  reg <- read "_metrics_registry" _metrics_registry ;;
  match reg !! h with
  | Some gauge =>
      match Prometheus.labels gauge
              [("service", "fks_futures"); ("version", "1.0.0")] with
      | Some labelvalues =>
          set_globals
            (set_metrics_registry
               (<[h := Prometheus.set labelvalues 1 gauge]> reg))
      | None => raise (value_error "Incorrect label names")
      end
  | None => raise (name_error "_build_info")
  end.

(** Lines 45 to 66. *)
Definition setup_metrics (w : World) : Exec (State Globals) unit :=
  try_except
    (may_raise (metrics_fault w import_prometheus_client) ;;
     may_raise (metrics_fault w import_PlainTextResponse) ;;
     may_raise (metrics_fault w call_CollectorRegistry) ;;
     set_globals (set_metrics_registry Prometheus.new_CollectorRegistry) ;;
     may_raise (metrics_fault w call_Gauge) ;;
     create_build_info ;;
     may_raise (metrics_fault w call_labels_set) ;;
     set_build_info_labels ;;
     may_raise (metrics_fault w decorate_metrics_endpoint) ;;
     set_globals (set_app (Fastapi.get "/metrics" false ep_metrics_endpoint)) ;;
     may_raise (metrics_fault w log_registered) ;;
     logger.info "✅ Prometheus metrics with fks_build_info registered")
    Exception
    (fun e =>
       logger.warning ("Could not set up Prometheus metrics: " +:+ exc_str e)).

(** Lines 69 and 70.  A router object is true; [None] is false. *)
Definition register_routes : Exec (State Globals) unit :=
  g <- get_globals ;;
  match health_router g with
  | Some router => set_globals (set_app (include_router router ["health"]))
  | None => ret tt
  end.

(** Lines 74 to 77. *)
Definition startup_event : Exec (State Globals) unit :=
  logger.info "Starting FKS Futures Trading Service..." ;;
  logger.info "FKS Futures Trading Service started successfully".

(** Lines 81 to 95. *)
Definition root : Exec (State Globals) Http.Response :=
  ret (Http.JSONResponse
         (Http.JDict
            [ ("service", Http.JStr "fks_futures");
              ("version", Http.JStr "1.0.0");
              ("status", Http.JStr "running");
              ("endpoints", Http.JDict [("health", Http.JStr "/health")]);
              ("features",
               Http.JList
                 [ Http.JStr "Futures market analysis";
                   Http.JStr "Signal generation";
                   Http.JStr "Integration with fks-app, fks-execution, fks-data" ]) ])
         200).

(** Lines 44 to 95, once [health_router] and [app] are bound. *)
Definition wire (w : World) : Exec (State Globals) unit :=
  setup_metrics w ;;
  register_routes ;;
  set_globals (set_app (on_event_startup hook_startup_event)) ;;
  set_globals (set_app (Fastapi.get "/" true ep_root)).

(** Importing the module (lines 9 to 95): the exception that escapes with
    the records logged until then, or the module's state. *)
Definition load (w : World)
    : PyExc * list Logging.LogRecord + State Globals :=
  match import_health_router w {| globals := tt; records := [] |} with
  | (Raises e, s) => inl (e, records s)
  | (Returns router, s) =>
      match wire w {| globals := {| health_router := router;
                                    app := create_app;
                                    _metrics_registry := None;
                                    _build_info := None |};
                      records := records s |} with
      | (Raises e, s') => inl (e, records s')
      | (Returns _, s') => inr s'
      end
  end.

Definition run_hook (h : Hook) : Exec (State Globals) unit :=
  match h with
  | hook_startup_event => startup_event
  end.

(** The server's startup phase: the application's startup hooks, in order. *)
Fixpoint run_hooks (hs : list Hook) : Exec (State Globals) unit :=
  match hs with
  | [] => ret tt
  | h :: rest => run_hook h ;; run_hooks rest
  end.

(** The process: it ends with an exception before serving, or it is ready
    and serves requests from its state. *)
Inductive Process :=
  | Crashed (e : PyExc) (log : list Logging.LogRecord)
  | Ready (s : State Globals).

Definition startup (s : State Globals) : Process :=
  match run_hooks (on_startup (app (globals s))) s with
  | (Returns _, s') => Ready s'
  | (Raises e, s') => Crashed e (records s')
  end.

(** The module imported and started by an ASGI server. *)
Definition boot (w : World) : Process :=
  match load w with
  | inl (e, log) => Crashed e log
  | inr s => startup s
  end.

Definition call_endpoint (e : Endpoint) : Exec (State Globals) Http.Response :=
  match e with
  | ep_root => root
  | ep_metrics_endpoint => metrics_endpoint
  | ep_builtin page =>
      ret {| Http.status_code := 200;
             Http.headers := [];
             Http.content := Http.Content_page page |}
  | ep_external reply => ret reply
  end.

(** One request against the running service.  The CORS middleware leaves
    the status and the content of a request without preflight as they are,
    so a request is its method and path. *)
Definition serve (s : State Globals) (req : Http.Request)
    : Http.Response * State Globals :=
  match Routing.route (routes (app (globals s))) req with
  | Handle r =>
      match call_endpoint (endpoint r) s with
      | (Returns resp, s') => (resp, s')
      | (Raises _, s') => (Http.server_error, s')
      end
  | MethodNotAllowed r =>
      (Http.http_exception 405 "Method Not Allowed"
         [("allow", Str.join ", " (methods r))], s)
  | Redirect url => (Http.RedirectResponse url, s)
  | NotFound => (Http.http_exception 404 "Not Found" [], s)
  end.

(** *** Running the file as a script (lines 98 to 101) *)

(** [os.getenv(key, default)]. *)
Definition getenv (environ : gmap string string) (key dflt : string) : string :=
  default dflt (environ !! key).

(** The ASCII characters [int] and [strip] take for whitespace. *)
Definition is_space (a : ascii) : bool :=
  bool_decide (nat_of_ascii a ∈ [9; 10; 11; 12; 13; 28; 29; 30; 31; 32]%nat).

Definition digit (a : ascii) : option Z :=
  let n := nat_of_ascii a in
  if (48 <=? n)%nat && (n <=? 57)%nat then Some (Z.of_nat (n - 48)) else None.

(** Decimal digits, single underscores allowed between digits. *)
Fixpoint digits (acc : Z) (after_digit : bool) (s : string) : option Z :=
  match s with
  | EmptyString => if after_digit then Some acc else None
  | String a rest =>
      match digit a with
      | Some d => digits (10 * acc + d) true rest
      | None =>
          if Ascii.eqb a "_"%char && after_digit then digits acc false rest
          else None
      end
  end.

(** Decimal text as [int] reads it once the text is ASCII: surrounding
    whitespace, an optional sign, decimal digits.  [None]: not a number. *)
Definition int_ascii (s : string) : option Z :=
  match Str.rstrip is_space (Str.lstrip is_space s) with
  | String "-"%char rest => Z.opp <$> digits 0 false rest
  | String "+"%char rest => digits 0 false rest
  | t => digits 0 false t
  end.

Fixpoint ascii_only (s : string) : bool :=
  match s with
  | EmptyString => true
  | String c rest => (nat_of_ascii c <? 128)%nat && ascii_only rest
  end.

(** The texts [int] is modelled on: ASCII, and short enough for the limit
    on the number of digits (4300 since Python 3.11) not to apply.
    Outside of them Python's [int] also reads the decimal digits and the
    spaces of other scripts. *)
Definition int_modelled (s : string) : bool :=
  ascii_only s && (String.length s <=? 4300)%nat.

Definition hex_digit (n : nat) : ascii :=
  match String.get n "0123456789abcdef" with
  | Some c => c
  | None => "0"%char
  end.

(** One character of [repr(s)] for ASCII [s], inside quotes [quote]. *)
Definition repr_char (quote c : ascii) : string :=
  let n := nat_of_ascii c in
  if Ascii.eqb c quote || Ascii.eqb c "092"%char then Str.BS +:+ String c EmptyString
  else if Ascii.eqb c "009"%char then Str.BS +:+ "t"
  else if Ascii.eqb c "010"%char then Str.BS +:+ "n"
  else if Ascii.eqb c "013"%char then Str.BS +:+ "r"
  else if (n <? 32)%nat || (n =? 127)%nat then
    Str.BS +:+ "x" +:+ String (hex_digit (n / 16)) (String (hex_digit (n mod 16)) EmptyString)
  else String c EmptyString.

Fixpoint repr_chars (quote : ascii) (s : string) : string :=
  match s with
  | EmptyString => EmptyString
  | String c rest => repr_char quote c +:+ repr_chars quote rest
  end.

(** [repr(s)] for ASCII [s]: single quotes, unless the text has a single
    quote and no double quote. *)
Definition repr (s : string) : string :=
  let quote :=
    if Str.contains "'" s && negb (Str.contains Str.DQ s) then "034"%char
    else "'"%char in
  String quote (repr_chars quote s +:+ String quote EmptyString).

(** The ValueError of [int(s)]: it quotes the text, at most 200 characters
    of its repr. *)
Definition int_error (s : string) : PyExc :=
  value_error ("invalid literal for int() with base 10: "
               +:+ substring 0 200 (repr s)).

(** [int(s)]: the number, or ValueError; [None] for a text outside the
    modelled ones. *)
Definition int (s : string) : option (Outcome Z) :=
  if int_modelled s then
    Some match int_ascii s with
         | Some n => Returns n
         | None => Raises (int_error s)
         end
  else None.

(** How the script ends up: it exits with an exception, or it listens.
    [Ephemeral] is listening on a port the operating system chose;
    [NotModelled] stands for a run the model does not follow (a port text
    outside the modelled ones). *)
Inductive Launch :=
  | Exited (e : PyExc) (log : list Logging.LogRecord)
  | Listening (host : string) (port : Z) (s : State Globals)
  | Ephemeral (host : string) (s : State Globals)
  | NotModelled.

Definition bind_overflow : PyExc :=
  {| exc_class := OverflowError; exc_str := "bind(): port must be 0-65535." |}.

(** [uvicorn.run(app, host=..., port=...)]: the startup phase first, then
    the socket is bound.  A port outside 0..65535 makes the bind raise
    OverflowError; port 0 lets the operating system choose; any other port
    is the one address the server listens on (the address is taken to be
    free to bind). *)
Definition uvicorn_run (s : State Globals) (host : string) (port : Z) : Launch :=
  match startup s with
  | Crashed e log => Exited e log
  | Ready s' =>
      if (port <? 0) || (65535 <? port) then Exited bind_overflow (records s')
      else if port =? 0 then Ephemeral host s'
      else Listening host port s'
  end.

Definition main (w : World) (environ : gmap string string) : Launch :=
  match load w with
  | inl (e, log) => Exited e log
  | inr s =>
      match int (getenv environ "SERVICE_PORT" "8015") with
      | Some (Returns port) => uvicorn_run s "0.0.0.0" port
      | Some (Raises e) => Exited e (records s)
      | None => NotModelled
      end
  end.

End Main.

(** ** Vocabulary of the properties *)

Module Props.

Import Py Routing Fastapi Main.

(** The statements of the metrics block before the route exists, and the
    whole block, in program order. *)
Definition before_bind : list MetricsStep :=
  [ import_prometheus_client; import_PlainTextResponse;
    call_CollectorRegistry; call_Gauge; call_labels_set;
    decorate_metrics_endpoint ].

Definition metrics_block : list MetricsStep := before_bind ++ [log_registered].

(** The first statement of [steps] that raises, with its exception. *)
Fixpoint first_raise (faults : MetricsStep -> option PyExc)
    (steps : list MetricsStep) : option (MetricsStep * PyExc) :=
  match steps with
  | [] => None
  | st :: rest =>
      match faults st with
      | Some e => Some (st, e)
      | None => first_raise faults rest
      end
  end.

(** The health component is decided: the import returned a router
    (present) or raised what line 25 catches (absent). *)
Definition health_decided (w : World) : bool :=
  match health_module w with
  | Returns _ => true
  | Raises e => isinstance e ImportError
  end.

(** The metrics component is decided: the block ran through (present) or
    raised what line 65 catches (absent). *)
Definition metrics_decided (w : World) : bool :=
  match first_raise (metrics_fault w) metrics_block with
  | None => true
  | Some (_, e) => isinstance e Exception
  end.

(** The decorator on line 58 is reached and returns. *)
Definition metrics_bound (w : World) : bool :=
  match first_raise (metrics_fault w) before_bind with
  | None => true
  | Some _ => false
  end.

Definition router_avoids (p : string) (router : APIRouter) : bool :=
  forallb (fun r => negb (String.eqb (route_path r) p)) (router_routes router).

(** Modelled from the spec: the health-check module [api/routes/health.py]
    is not among the sources; the spec gives its routes as
    [GET /health...].  A router of that shape has every path under
    [/health]. *)
Definition under_health (router : APIRouter) : bool :=
  forallb (fun r => String.prefix "/health" (route_path r))
    (router_routes router).

(** The world's health router, when there is one, has that shape. *)
Definition health_under_health (w : World) : bool :=
  match health_module w with
  | Returns router => under_health router
  | Raises _ => true
  end.

(** The health router, when there is one, has no route at path [p]. *)
Definition health_avoids (p : string) (w : World) : bool :=
  match health_module w with
  | Returns router => router_avoids p router
  | Raises _ => true
  end.

Definition metrics_route : Route :=
  {| route_path := "/metrics"; methods := ["GET"];
     endpoint := ep_metrics_endpoint; tags := []; include_in_schema := false |}.

Definition root_route : Route :=
  {| route_path := "/"; methods := ["GET"];
     endpoint := ep_root; tags := []; include_in_schema := true |}.

(** The routes each optional component contributes. *)
Definition metrics_part (w : World) : list Route :=
  if metrics_bound w then [metrics_route] else [].

Definition health_part (w : World) : list Route :=
  match health_module w with
  | Returns router => included ["health"] <$> router_routes router
  | Raises _ => []
  end.

Definition route_table (w : World) : list Route :=
  routes create_app ++ metrics_part w ++ health_part w ++ [root_route].

Definition health_warning : Logging.LogRecord :=
  {| Logging.levelname := Logging.WARNING;
     Logging.message := "Could not import health router" |}.

Definition is_health_warning (r : Logging.LogRecord) : bool :=
  bool_decide (Logging.levelname r = Logging.WARNING)
  && String.eqb (Logging.message r) "Could not import health router".

Definition metrics_warning (e : PyExc) : Logging.LogRecord :=
  {| Logging.levelname := Logging.WARNING;
     Logging.message := "Could not set up Prometheus metrics: " +:+ exc_str e |}.

(** The registry once the block has run through. *)
Definition build_info_registry : Prometheus.CollectorRegistry :=
  [ {| Prometheus.name := "fks_build_info";
       Prometheus.documentation := "Build information for the service";
       Prometheus.labelnames := ["service"; "version"];
       Prometheus.metrics := [(["fks_futures"; "1.0.0"], 1)] |} ].

Definition help_line : string :=
  "# HELP fks_build_info Build information for the service".

Definition type_line : string := "# TYPE fks_build_info gauge".

(** The series of the build-info gauge: its name and labels. *)
Definition build_info_series : string :=
  "fks_build_info{service=" +:+ Str.DQ +:+ "fks_futures" +:+ Str.DQ
  +:+ ",version=" +:+ Str.DQ +:+ "1.0.0" +:+ Str.DQ +:+ "}".

(** The sample text the spec quotes: the series and the value 1. *)
Definition build_info_sample : string := build_info_series +:+ " 1".

Definition metrics_media_type : string :=
  "text/plain; version=0.0.4; charset=utf-8".

Definition text_of (c : Http.Content) : string :=
  match c with
  | Http.Content_text t => t
  | _ => EmptyString
  end.

(** The body of [GET /] as the script writes it. *)
Definition descriptor : Http.Json :=
  Http.JDict
    [ ("service", Http.JStr "fks_futures");
      ("version", Http.JStr "1.0.0");
      ("status", Http.JStr "running");
      ("endpoints", Http.JDict [("health", Http.JStr "/health")]);
      ("features",
       Http.JList
         [ Http.JStr "Futures market analysis";
           Http.JStr "Signal generation";
           Http.JStr "Integration with fks-app, fks-execution, fks-data" ]) ].

(** The number of metric families an exposition declares. *)
Definition family_count (text : string) : nat :=
  length (List.filter (String.prefix "# TYPE ") (Str.splitlines text)).

(** The text served by [GET /metrics]. *)
Definition metrics_body (s : State Globals) : string :=
  text_of (Http.content (fst (serve s (Http.GET "/metrics")))).

(** Sample worlds. *)
Definition no_faults : MetricsStep -> option PyExc := fun _ => None.

Definition fault_at (st : MetricsStep) (e : PyExc) : MetricsStep -> option PyExc :=
  fun st' => if bool_decide (st' = st) then Some e else None.

Definition sample_health_router : APIRouter :=
  {| router_routes :=
       [ {| route_path := "/health"; methods := ["GET"];
            endpoint :=
              ep_external
                (Http.JSONResponse
                   (Http.JDict [("status", Http.JStr "healthy")]) 200);
            tags := []; include_in_schema := true |} ];
     router_paths_not_empty := eq_refl |}.

Definition module_not_found : PyExc :=
  {| exc_class := ModuleNotFoundError; exc_str := "No module named 'api'" |}.

Definition construction_error : PyExc :=
  {| exc_class := TypeError;
     exc_str := "APIRouter() got an unexpected keyword argument" |}.

Definition no_prometheus : PyExc :=
  {| exc_class := ModuleNotFoundError;
     exc_str := "No module named 'prometheus_client'" |}.

(** Everything available. *)
Definition world_full : World :=
  {| health_module := Returns sample_health_router;
     metrics_fault := no_faults |}.

(** The health module is missing; prometheus_client is there. *)
Definition world_no_health : World :=
  {| health_module := Raises module_not_found;
     metrics_fault := no_faults |}.

(** The health module is there; prometheus_client is missing. *)
Definition world_no_metrics : World :=
  {| health_module := Returns sample_health_router;
     metrics_fault := fault_at import_prometheus_client no_prometheus |}.

(** Neither optional component is available. *)
Definition world_bare : World :=
  {| health_module := Raises module_not_found;
     metrics_fault := fault_at import_prometheus_client no_prometheus |}.

(** A health router that defines the root path itself. *)
Definition world_shadowing : World :=
  {| health_module :=
       Returns
         {| router_routes :=
              [ {| route_path := "/"; methods := ["GET"];
                   endpoint :=
                     ep_external
                       (Http.JSONResponse
                          (Http.JDict [("status", Http.JStr "healthy")]) 200);
                   tags := []; include_in_schema := true |} ];
            router_paths_not_empty := eq_refl |};
     metrics_fault := no_faults |}.

(** The health module exists but raises while it builds its router. *)
Definition world_broken_health : World :=
  {| health_module := Raises construction_error;
     metrics_fault := no_faults |}.

End Props.

(** ** Vocabulary of the further properties *)

Module Behaviour.

Import Py Routing Fastapi Main Props.

Definition info (msg : string) : Logging.LogRecord :=
  {| Logging.levelname := Logging.INFO; Logging.message := msg |}.

(** What importing the module logs: the health warning when the import
    was caught, then the outcome of the metrics block. *)
Definition import_log (w : World) : list Logging.LogRecord :=
  match health_module w with
  | Returns _ => []
  | Raises _ => [health_warning]
  end
  ++ match first_raise (metrics_fault w) metrics_block with
     | None => [info "✅ Prometheus metrics with fks_build_info registered"]
     | Some (_, e) => [metrics_warning e]
     end.

(** What the startup hook logs. *)
Definition startup_log : list Logging.LogRecord :=
  [ info "Starting FKS Futures Trading Service...";
    info "FKS Futures Trading Service started successfully" ].

(** What is logged before the metrics block when the block does not
    return. *)
Definition health_log (w : World) : list Logging.LogRecord :=
  match health_module w with
  | Returns _ => []
  | Raises _ => [health_warning]
  end.

Definition permissive_cors : CORSMiddleware :=
  {| allow_origins := ["*"]; allow_credentials := true;
     allow_methods := ["*"]; allow_headers := ["*"] |}.

Definition request (m p : string) : Http.Request :=
  {| Http.method := m; Http.path := p |}.

Definition not_found : Http.Response :=
  Http.http_exception 404 "Not Found" [].

Definition get_only : Http.Response :=
  Http.http_exception 405 "Method Not Allowed" [("allow", "GET")].

(** The paths of the routes of the health router that contribute to the
    schema. *)
Definition health_schema_paths (w : World) : list string :=
  route_path <$> filter (fun r => in_schema r = true) (health_part w).

(** The reply an endpoint of the health router stands for. *)
Definition reply_of (r : Route) : option Http.Response :=
  match endpoint r with
  | ep_external reply => Some reply
  | _ => None
  end.

(** [rstrip] by recursion on the text: a character is kept when something
    after it is kept or it is not in the set. *)
Fixpoint rstrip_rec (p : ascii -> bool) (s : string) : string :=
  match s with
  | EmptyString => EmptyString
  | String c rest =>
      match rstrip_rec p rest with
      | EmptyString => if p c then EmptyString else String c EmptyString
      | kept => String c kept
      end
  end.

Fixpoint all_chars (p : ascii -> bool) (s : string) : bool :=
  match s with
  | EmptyString => true
  | String c rest => p c && all_chars p rest
  end.

Definition is_digit (a : ascii) : bool :=
  match digit a with
  | Some _ => true
  | None => false
  end.

(** Sample inputs. *)
Definition interrupt : PyExc :=
  {| exc_class := KeyboardInterrupt; exc_str := EmptyString |}.

(** The health module is missing, and the process is interrupted while
    the gauge is created. *)
Definition world_interrupted : World :=
  {| health_module := Raises module_not_found;
     metrics_fault := fault_at call_Gauge interrupt |}.

(** Nothing set. *)
Definition environ_empty : gmap string string := ∅.

(** The port variable set to the empty text. *)
Definition environ_blank_port : gmap string string :=
  {[ "SERVICE_PORT" := EmptyString ]}.

Definition environ_port (n : Z) : gmap string string :=
  {[ "SERVICE_PORT" := pretty n ]}.

End Behaviour.

(** ** Facts about the model *)

Import Py Routing Fastapi Main Props.

(** Case analysis on what the world does to the script: the outcome of the
    health import and, statement by statement, the first fault of the
    metrics block; an exception is split by whether its handler catches
    it. *)
Ltac caught_or_not e cls :=
  destruct (isinstance e cls) eqn:?.

Ltac fault_cases mf :=
  let e := fresh "e" in
  destruct (mf import_prometheus_client) as [e|] eqn:?;
  [caught_or_not e Exception|];
  [..| destruct (mf import_PlainTextResponse) as [e|] eqn:?;
  [caught_or_not e Exception|];
  [..| destruct (mf call_CollectorRegistry) as [e|] eqn:?;
  [caught_or_not e Exception|];
  [..| destruct (mf call_Gauge) as [e|] eqn:?;
  [caught_or_not e Exception|];
  [..| destruct (mf call_labels_set) as [e|] eqn:?;
  [caught_or_not e Exception|];
  [..| destruct (mf decorate_metrics_endpoint) as [e|] eqn:?;
  [caught_or_not e Exception|];
  [..| destruct (mf log_registered) as [e|] eqn:?;
  [caught_or_not e Exception|] ]]]]]].

Ltac use_caught :=
  repeat match goal with
  | H : isinstance ?e ?c = _ |- context [isinstance ?e ?c] => rewrite H
  | H : isinstance ?e ?c = _, H' : context [isinstance ?e ?c] |- _ =>
      lazymatch H' with H => fail | _ => rewrite H in H' end
  end.

Ltac run_script := cbv -[isinstance] in *; use_caught; cbv -[isinstance] in *.

Ltac world_cases w :=
  let hm := fresh "hm" in let mf := fresh "mf" in
  let router := fresh "router" in let e := fresh "e" in
  destruct w as [hm mf];
  unfold boot, load, wire, setup_metrics, import_health_router,
    route_table, metrics_part, health_part, health_avoids in *;
  cbv [health_decided metrics_decided metrics_bound
       metrics_block before_bind first_raise Datatypes.app
       health_module metrics_fault] in *;
  destruct hm as [router|e]; [|caught_or_not e ImportError];
  fault_cases mf;
  run_script.

Lemma boot_ready (w : World) :
  health_decided w = true -> metrics_decided w = true ->
  exists s, boot w = Ready s
    /\ routes (app (globals s)) = route_table w
    /\ health_router (globals s)
       = match health_module w with Returns r => Some r | Raises _ => None end.
Proof.
  intros Hh Hm. world_cases w; try discriminate Hh; try discriminate Hm.
  all: eexists; split; [reflexivity | split; reflexivity].
Qed.

Lemma boot_ready_inv (w : World) (s : State Globals) :
  boot w = Ready s -> health_decided w = true /\ metrics_decided w = true.
Proof.
  intros Hb. world_cases w; try discriminate Hb; split; reflexivity.
Qed.

(** An exception line 25 does not catch ends the process before the
    application exists. *)
Lemma boot_health_escapes (w : World) (e : PyExc) :
  health_module w = Raises e -> isinstance e ImportError = false ->
  boot w = Crashed e [].
Proof.
  intros Hh He. destruct w as [hm mf]. cbn in Hh. subst hm.
  unfold boot, load, import_health_router.
  cbv -[isinstance]. rewrite He. reflexivity.
Qed.

(** The health warning is logged once when the import was caught, and not
    at all when it returned. *)
Lemma boot_health_warnings (w : World) (s : State Globals) :
  boot w = Ready s ->
  List.filter is_health_warning (records s)
  = match health_module w with
    | Returns _ => []
    | Raises _ => [health_warning]
    end.
Proof.
  intros Hb. world_cases w; try discriminate Hb.
  all: injection Hb as <-; reflexivity.
Qed.

(** The warning of line 66 is logged when the metrics block raised. *)
Lemma boot_metrics_warning (w : World) (s : State Globals)
    (st : MetricsStep) (e : PyExc) :
  boot w = Ready s ->
  first_raise (metrics_fault w) metrics_block = Some (st, e) ->
  metrics_warning e ∈ records s.
Proof.
  intros Hb Hf. world_cases w; try discriminate Hb; try discriminate Hf.
  all: injection Hb as <-; injection Hf as _ <-.
  all: repeat first [apply list_elem_of_here | apply list_elem_of_further].
Qed.

(** The registry holds the one gauge and its one child once the block has
    run as far as line 56. *)
Lemma boot_registry (w : World) (s : State Globals) :
  boot w = Ready s -> metrics_bound w = true ->
  _metrics_registry (globals s) = Some build_info_registry.
Proof.
  intros Hb Hl. world_cases w; try discriminate Hb; try discriminate Hl.
  all: injection Hb as <-; reflexivity.
Qed.

(** *** Dispatch *)

Lemma scan_skip (l l' : list Route) (req : Http.Request) (p : option Route) :
  Forall (fun r => matches r req = NONE) l ->
  scan (l ++ l') req p = scan l' req p.
Proof.
  induction 1 as [|r l Hr _ IH]; [reflexivity|].
  cbn. rewrite Hr. exact IH.
Qed.


Lemma any_match_none (l : list Route) (req : Http.Request) :
  Forall (fun r => matches r req = NONE) l -> any_match l req = false.
Proof.
  induction 1 as [|r l Hr _ IH]; [reflexivity|].
  unfold any_match in *. cbn. rewrite Hr. exact IH.
Qed.

(** A route at another path does not match, whatever the method. *)
Lemma matches_other_path (r : Route) (m p : string) :
  String.eqb (route_path r) p = false ->
  matches r {| Http.method := m; Http.path := p |} = NONE.
Proof. intros H. unfold matches. cbn. rewrite H. reflexivity. Qed.

Lemma health_part_misses (w : World) (m p : string) :
  health_avoids p w = true ->
  Forall (fun r => matches r {| Http.method := m; Http.path := p |} = NONE)
    (health_part w).
Proof.
  unfold health_avoids, health_part, router_avoids.
  destruct (health_module w) as [router|e]; [|constructor].
  intros H. rewrite forallb_forall in H.
  apply Forall_forall. intros r Hr.
  apply list_elem_of_fmap in Hr as (r0 & -> & Hr0).
  apply matches_other_path. cbn.
  rewrite list_elem_of_In in Hr0. apply H in Hr0.
  destruct (String.eqb (route_path r0) p); [discriminate | reflexivity].
Qed.

(** Routes under [/health] leave the script's paths alone. *)
Lemma under_health_avoids (router : APIRouter) (p : string) :
  under_health router = true -> String.prefix "/health" p = false ->
  router_avoids p router = true.
Proof.
  unfold under_health, router_avoids. intros H Hp.
  apply forallb_forall. intros r Hr.
  rewrite forallb_forall in H. specialize (H r Hr).
  destruct (String.eqb_spec (route_path r) p) as [E|_]; [|reflexivity].
  rewrite E, Hp in H. discriminate.
Qed.

(** Requests against a state whose route table is the one the script
    builds in world [w]. *)
Section Serving.

Variable w : World.
Variable s : State Globals.
Hypothesis Hroutes : routes (app (globals s)) = route_table w.

(** [GET /] reaches the root endpoint when the health router has no route
    at that path. *)
Lemma serve_root :
  health_avoids "/" w = true ->
  serve s (Http.GET "/") = (Http.JSONResponse descriptor 200, s).
Proof.
  intros Ha. unfold serve, Routing.route. rewrite Hroutes.
  unfold route_table. rewrite !(assoc_L (++)).
  rewrite <- (assoc_L (++) _ (health_part w)).
  rewrite scan_skip.
  - rewrite scan_skip; [reflexivity|].
    apply health_part_misses. exact Ha.
  - unfold metrics_part. destruct (metrics_bound w); repeat constructor.
Qed.

(** [GET /metrics] reaches the metrics endpoint once its route is bound:
    the route comes before any route of the health router. *)
Lemma serve_metrics (reg : Prometheus.CollectorRegistry) :
  metrics_bound w = true ->
  _metrics_registry (globals s) = Some reg ->
  serve s (Http.GET "/metrics")
  = (Http.PlainTextResponse (Prometheus.generate_latest reg)
       (Some metrics_media_type), s).
Proof.
  intros Hb Hreg. unfold serve, Routing.route. rewrite Hroutes.
  unfold route_table, metrics_part. rewrite Hb. cbn.
  unfold metrics_endpoint, read, bind, get_globals. rewrite Hreg.
  reflexivity.
Qed.

Lemma table_misses (m p : string) :
  metrics_bound w = false ->
  health_avoids p w = true ->
  Forall (fun r => matches r {| Http.method := m; Http.path := p |} = NONE)
    (routes create_app) ->
  matches root_route {| Http.method := m; Http.path := p |} = NONE ->
  Forall (fun r => matches r {| Http.method := m; Http.path := p |} = NONE)
    (route_table w).
Proof.
  intros Hb Hp Hc Hroot. unfold route_table, metrics_part. rewrite Hb.
  apply Forall_app. split; [exact Hc|]. cbn [Datatypes.app].
  apply Forall_app. split; [apply health_part_misses; exact Hp|].
  constructor; [exact Hroot | constructor].
Qed.

(** Without its route, [GET /metrics] is answered by the router's
    not-found default, provided the health router does not claim the path
    or its trailing-slash variant. *)
Lemma serve_metrics_unbound :
  metrics_bound w = false ->
  health_avoids "/metrics" w = true ->
  health_avoids "/metrics/" w = true ->
  serve s (Http.GET "/metrics") = (Http.http_exception 404 "Not Found" [], s).
Proof.
  intros Hb Ha Ha'. unfold serve, Routing.route. rewrite Hroutes.
  rewrite <- (app_nil_r (route_table w)).
  rewrite scan_skip
    by (apply table_misses; [exact Hb | exact Ha | repeat constructor | reflexivity]).
  cbn [scan]. rewrite app_nil_r.
  rewrite any_match_none; [reflexivity|].
  apply table_misses; [exact Hb | exact Ha' | repeat constructor | reflexivity].
Qed.

End Serving.

(** The health router is included before the root route is added (line 70
    comes before line 80), so a health router with a route at [/] would
    answer [GET /] in the script's place. *)
Example root_shadowed_by_health_router :
  health_avoids "/" world_shadowing = false /\
  exists s, boot world_shadowing = Ready s /\
    Http.content (fst (serve s (Http.GET "/")))
    = Http.Content_json (Http.JDict [("status", Http.JStr "healthy")]).
Proof.
  split; [reflexivity|]. eexists. split; reflexivity.
Qed.

(** A health router of the shape the spec gives leaves the script's paths
    alone. *)
Lemma health_under_health_avoids (w : World) :
  health_under_health w = true ->
  health_avoids "/" w = true /\
  health_avoids "/metrics" w = true /\
  health_avoids "/metrics/" w = true.
Proof.
  unfold health_under_health, health_avoids.
  destruct (health_module w) as [router|e]; [|repeat split].
  intros H. repeat split; apply under_health_avoids; (exact H || reflexivity).
Qed.

Lemma first_raise_app (faults : MetricsStep -> option PyExc)
    (l l' : list MetricsStep) :
  first_raise faults (l ++ l')
  = match first_raise faults l with
    | Some x => Some x
    | None => first_raise faults l'
    end.
Proof.
  induction l as [|st l IH]; [reflexivity|].
  cbn. destruct (faults st); [reflexivity | exact IH].
Qed.

Lemma health_part_paths (w : World) (p : string) (r : Route) :
  health_avoids p w = true -> r ∈ health_part w -> route_path r <> p.
Proof.
  unfold health_avoids, health_part, router_avoids.
  destruct (health_module w) as [router|e].
  - intros H Hr. apply list_elem_of_fmap in Hr as (r0 & -> & Hr0).
    rewrite forallb_forall in H. rewrite list_elem_of_In in Hr0.
    apply H in Hr0. cbn. intros E. rewrite E, String.eqb_refl in Hr0.
    discriminate.
  - intros _ Hr. apply elem_of_nil in Hr. contradiction.
Qed.

(** A key is in the dict exactly when it was inserted. *)
Lemma dict_keys_elem (seen l : list string) (k : string) :
  k ∈ dict_keys seen l <-> k ∈ l /\ k ∉ seen.
Proof.
  revert seen. induction l as [|k' l IH]; intros seen; cbn.
  - split; [intros H; apply elem_of_nil in H; contradiction|].
    intros [H _]. apply elem_of_nil in H. contradiction.
  - case_bool_decide as Hseen.
    + rewrite IH, elem_of_cons. split; [intros [H H']; auto|].
      intros [[->|H] H']; [contradiction | auto].
    + rewrite !elem_of_cons, IH, not_elem_of_cons. split.
      * intros [->|(H & H1 & H2)]; auto.
      * intros [[->|H] H']; [auto|].
        destruct (decide (k = k')) as [->|Hne]; auto.
Qed.

(** ** The claims *)

(** C1, as the spec states it, fails: it covers every way the health
    import can fail, and a failure that is not an ImportError (here a
    TypeError raised while the health module builds its router) ends the
    process before the application exists, so no [GET /] is ever answered,
    let alone with 200. *)
Lemma root_not_served_when_health_import_escapes :
  health_module world_broken_health = Raises construction_error /\
  isinstance construction_error ImportError = false /\
  ~ (exists s, boot world_broken_health = Ready s /\
       Http.status_code (fst (serve s (Http.GET "/"))) = 200).
Proof.
  split; [reflexivity|]. split; [reflexivity|].
  intros (s & Hs & _). discriminate Hs.
Qed.

(** C1, amended.  Always-available root, for every startup configuration
    in which each optional component is decided, present or absent (the
    health import returned a router or raised an ImportError; the metrics
    block ran through or raised an Exception at any of its statements):
    the process reaches Ready and [GET /] returns status 200 with a JSON
    body whose [service] field is fks_futures and whose [version] field
    is 1.0.0.  The health router's routes are a parameter of the world;
    the router is taken not to define the root path itself. *)
Theorem root_always_available (w : World) :
  health_decided w = true ->
  metrics_decided w = true ->
  health_avoids "/" w = true ->
  exists s, boot w = Ready s /\
    let resp := fst (serve s (Http.GET "/")) in
    Http.status_code resp = 200 /\
    exists body, Http.content resp = Http.Content_json body /\
      Http.field "service" body = Some (Http.JStr "fks_futures") /\
      Http.field "version" body = Some (Http.JStr "1.0.0").
Proof.
  intros Hh Hm Ha.
  destruct (boot_ready w Hh Hm) as (s & Hboot & Hroutes & _).
  exists s. split; [exact Hboot|].
  rewrite (serve_root w s Hroutes Ha). cbn.
  split; [reflexivity|]. exists descriptor. repeat split.
Qed.

Lemma root_always_available_bare :
  health_decided world_bare = true /\
  metrics_decided world_bare = true /\
  health_avoids "/" world_bare = true /\
  exists s, boot world_bare = Ready s /\
    let resp := fst (serve s (Http.GET "/")) in
    Http.status_code resp = 200 /\
    exists body, Http.content resp = Http.Content_json body /\
      Http.field "service" body = Some (Http.JStr "fks_futures") /\
      Http.field "version" body = Some (Http.JStr "1.0.0").
Proof.
  split; [reflexivity|]. split; [reflexivity|]. split; [reflexivity|].
  apply (root_always_available world_bare); reflexivity.
Defined.

(** C2, as the spec states it, fails: a construction error in the health
    module (a TypeError raised while the module builds its router) is not
    an ImportError, so line 25 does not catch it; the exception leaves the
    import, nothing is logged and the process never becomes Ready. *)
Lemma health_construction_error_escapes :
  health_module world_broken_health = Raises construction_error /\
  boot world_broken_health = Crashed construction_error [] /\
  ~ (exists s, boot world_broken_health = Ready s).
Proof.
  split; [reflexivity|]. split; [reflexivity|].
  intros [s Hs]. discriminate Hs.
Qed.

(** C2, amended.  When acquiring the health module raises an ImportError
    (a missing module, ModuleNotFoundError included, or a missing symbol),
    startup catches it, logs the warning naming the health router exactly
    once, leaves [health_router] as [None], binds no route for it, and the
    process reaches Ready (the metrics block being decided one way or the
    other).  An exception of any other class raised by the import is not
    caught: it ends startup with nothing logged. *)
Theorem health_import_error_caught (w : World) (e : PyExc) :
  health_module w = Raises e ->
  metrics_decided w = true ->
  (isinstance e ImportError = true ->
   exists s, boot w = Ready s /\
     health_router (globals s) = None /\
     List.filter is_health_warning (records s) = [health_warning] /\
     routes (app (globals s))
     = routes create_app ++ metrics_part w ++ [root_route]) /\
  (isinstance e ImportError = false -> boot w = Crashed e []).
Proof.
  intros Hh Hm. split.
  - intros He.
    assert (Hd : health_decided w = true)
      by (unfold health_decided; rewrite Hh; exact He).
    destruct (boot_ready w Hd Hm) as (s & Hboot & Hroutes & Hrouter).
    exists s. split; [exact Hboot|].
    pose proof (boot_health_warnings w s Hboot) as Hw.
    unfold route_table, health_part in Hroutes.
    rewrite Hh in Hrouter, Hw, Hroutes.
    repeat split; assumption.
  - intros He. exact (boot_health_escapes w e Hh He).
Qed.

Lemma health_import_error_caught_no_health :
  health_module world_no_health = Raises module_not_found /\
  metrics_decided world_no_health = true /\
  isinstance module_not_found ImportError = true /\
  exists s, boot world_no_health = Ready s /\
    health_router (globals s) = None /\
    List.filter is_health_warning (records s) = [health_warning] /\
    routes (app (globals s))
    = routes create_app ++ metrics_part world_no_health ++ [root_route].
Proof.
  split; [reflexivity|]. split; [reflexivity|]. split; [reflexivity|].
  apply (health_import_error_caught world_no_health module_not_found);
    reflexivity.
Defined.

(** C3. The route table of a ready process is the framework's own routes,
    the metrics route when it was bound, the health router's routes
    (tagged health) exactly when the import returned a router, and the
    root route.  When the import failed, [health_router] is [None] and no
    route of the table comes from the health component. *)
Theorem health_routes_bound_iff_loaded (w : World) (s : State Globals) :
  boot w = Ready s ->
  match health_module w with
  | Returns router =>
      health_router (globals s) = Some router /\
      routes (app (globals s))
      = routes create_app ++ metrics_part w
        ++ (included ["health"] <$> router_routes router) ++ [root_route]
  | Raises _ =>
      health_router (globals s) = None /\
      routes (app (globals s))
      = routes create_app ++ metrics_part w ++ [root_route]
  end.
Proof.
  intros Hboot.
  destruct (boot_ready_inv w s Hboot) as [Hh Hm].
  destruct (boot_ready w Hh Hm) as (s' & Hboot' & Hroutes & Hrouter).
  rewrite Hboot in Hboot'. injection Hboot' as <-.
  unfold route_table, health_part in Hroutes.
  destruct (health_module w); split; assumption.
Qed.

Lemma health_routes_bound_iff_loaded_no_health :
  exists s, boot world_no_health = Ready s /\
    health_router (globals s) = None /\
    routes (app (globals s))
    = routes create_app ++ metrics_part world_no_health ++ [root_route].
Proof.
  eexists. split; [reflexivity|].
  apply (health_routes_bound_iff_loaded world_no_health). reflexivity.
Defined.

(** C4. If a statement of the metrics block that comes before the route
    is bound (the prometheus import, the registry or gauge creation, the
    label assignment, the decorator) raises any Exception, then startup
    continues to Ready, the warning of line 66 is logged, the table has no
    route at [/metrics], and a request to it gets the router's not-found
    answer.  The health router is taken not to claim [/metrics] or
    [/metrics/] for itself. *)
Theorem metrics_failure_not_fatal (w : World) (st : MetricsStep) (e : PyExc) :
  first_raise (metrics_fault w) before_bind = Some (st, e) ->
  isinstance e Exception = true ->
  health_decided w = true ->
  health_avoids "/metrics" w = true ->
  health_avoids "/metrics/" w = true ->
  exists s, boot w = Ready s /\
    (forall r, r ∈ routes (app (globals s)) -> route_path r <> "/metrics") /\
    metrics_warning e ∈ records s /\
    Logging.levelname (metrics_warning e) = Logging.WARNING /\
    Http.status_code (fst (serve s (Http.GET "/metrics"))) = 404.
Proof.
  intros Hf He Hh Ha Ha'.
  assert (Hb : metrics_bound w = false)
    by (unfold metrics_bound; rewrite Hf; reflexivity).
  assert (Hblock : first_raise (metrics_fault w) metrics_block = Some (st, e))
    by (unfold metrics_block; rewrite first_raise_app, Hf; reflexivity).
  assert (Hm : metrics_decided w = true)
    by (unfold metrics_decided; rewrite Hblock; exact He).
  destruct (boot_ready w Hh Hm) as (s & Hboot & Hroutes & _).
  exists s. split; [exact Hboot|]. split; [|split; [|split]].
  - intros r Hr. rewrite Hroutes in Hr.
    unfold route_table, metrics_part in Hr. rewrite Hb in Hr.
    cbn [Datatypes.app] in Hr.
    apply elem_of_app in Hr as [Hr|Hr].
    + cbn in Hr. repeat (apply elem_of_cons in Hr as [->|Hr]);
        try (apply elem_of_nil in Hr; contradiction); discriminate.
    + apply elem_of_app in Hr as [Hr|Hr].
      * exact (health_part_paths w "/metrics" r Ha Hr).
      * apply list_elem_of_singleton in Hr as ->. discriminate.
  - exact (boot_metrics_warning w s st e Hboot Hblock).
  - reflexivity.
  - rewrite (serve_metrics_unbound w s Hroutes Hb Ha Ha'). reflexivity.
Qed.

Lemma metrics_failure_not_fatal_no_metrics :
  first_raise (metrics_fault world_no_metrics) before_bind
  = Some (import_prometheus_client, no_prometheus) /\
  isinstance no_prometheus Exception = true /\
  health_decided world_no_metrics = true /\
  health_avoids "/metrics" world_no_metrics = true /\
  health_avoids "/metrics/" world_no_metrics = true /\
  exists s, boot world_no_metrics = Ready s /\
    (forall r, r ∈ routes (app (globals s)) -> route_path r <> "/metrics") /\
    metrics_warning no_prometheus ∈ records s /\
    Logging.levelname (metrics_warning no_prometheus) = Logging.WARNING /\
    Http.status_code (fst (serve s (Http.GET "/metrics"))) = 404.
Proof.
  split; [reflexivity|]. split; [reflexivity|]. split; [reflexivity|].
  split; [reflexivity|]. split; [reflexivity|].
  apply (metrics_failure_not_fatal world_no_metrics
           import_prometheus_client no_prometheus); reflexivity.
Defined.

(** C5. Once the gauge is registered with service fks_futures, version
    1.0.0 and value 1 and the route is bound, the body of [GET /metrics]
    is three lines: the HELP line, the TYPE line, and the sample line.
    The sample line is the series with the value 1 as prometheus_client
    writes a gauge value, as a float: it matches the text the spec quotes
    in that it begins with it, and it continues with the fraction (1.0). *)
Theorem metrics_exposition_build_info (w : World) (s : State Globals) :
  boot w = Ready s ->
  metrics_bound w = true ->
  exists line,
    Str.splitlines (metrics_body s) = [help_line; type_line; line] /\
    String.prefix build_info_sample line = true /\
    line = build_info_series +:+ " " +:+ Prometheus.floatToGoString 1 /\
    line = build_info_sample +:+ ".0".
Proof.
  intros Hboot Hb.
  destruct (boot_ready_inv w s Hboot) as [Hh Hm].
  destruct (boot_ready w Hh Hm) as (s' & Hboot' & Hroutes & _).
  rewrite Hboot in Hboot'. injection Hboot' as <-.
  pose proof (boot_registry w s Hboot Hb) as Hreg.
  unfold metrics_body. rewrite (serve_metrics w s Hroutes _ Hb Hreg).
  eexists. split; [vm_compute; reflexivity|]. repeat split.
Qed.

Lemma metrics_exposition_build_info_full :
  exists s, boot world_full = Ready s /\
    metrics_bound world_full = true /\
    exists line,
      Str.splitlines (metrics_body s) = [help_line; type_line; line] /\
      String.prefix build_info_sample line = true /\
      line = build_info_series +:+ " " +:+ Prometheus.floatToGoString 1 /\
      line = build_info_sample +:+ ".0".
Proof.
  eexists. split; [reflexivity|]. split; [reflexivity|].
  apply (metrics_exposition_build_info world_full); reflexivity.
Defined.

(** C7. The body of [GET /] is the same in any two runs in which the
    optional components are decided, whichever way: it is the script's
    descriptor, whose [features] list and [endpoints] map (advertising
    health at /health) are constants.  In particular it is the same
    whether the health router loaded or not. *)
Theorem root_body_independent_of_components (w1 w2 : World) :
  health_decided w1 = true -> metrics_decided w1 = true ->
  health_avoids "/" w1 = true ->
  health_decided w2 = true -> metrics_decided w2 = true ->
  health_avoids "/" w2 = true ->
  exists s1 s2, boot w1 = Ready s1 /\ boot w2 = Ready s2 /\
    fst (serve s1 (Http.GET "/")) = fst (serve s2 (Http.GET "/")) /\
    Http.content (fst (serve s1 (Http.GET "/"))) = Http.Content_json descriptor /\
    Http.field "endpoints" descriptor
    = Some (Http.JDict [("health", Http.JStr "/health")]) /\
    Http.field "features" descriptor
    = Some (Http.JList
              [ Http.JStr "Futures market analysis";
                Http.JStr "Signal generation";
                Http.JStr "Integration with fks-app, fks-execution, fks-data" ]).
Proof.
  intros Hh1 Hm1 Ha1 Hh2 Hm2 Ha2.
  destruct (boot_ready w1 Hh1 Hm1) as (s1 & Hboot1 & Hroutes1 & _).
  destruct (boot_ready w2 Hh2 Hm2) as (s2 & Hboot2 & Hroutes2 & _).
  exists s1, s2. split; [exact Hboot1|]. split; [exact Hboot2|].
  rewrite (serve_root w1 s1 Hroutes1 Ha1), (serve_root w2 s2 Hroutes2 Ha2).
  repeat split.
Qed.

Lemma root_body_independent_of_health :
  health_decided world_full = true /\ metrics_decided world_full = true /\
  health_avoids "/" world_full = true /\
  health_decided world_no_health = true /\
  metrics_decided world_no_health = true /\
  health_avoids "/" world_no_health = true /\
  health_module world_full = Returns sample_health_router /\
  health_module world_no_health = Raises module_not_found /\
  exists s1 s2, boot world_full = Ready s1 /\ boot world_no_health = Ready s2 /\
    fst (serve s1 (Http.GET "/")) = fst (serve s2 (Http.GET "/")) /\
    Http.content (fst (serve s1 (Http.GET "/"))) = Http.Content_json descriptor /\
    Http.field "endpoints" descriptor
    = Some (Http.JDict [("health", Http.JStr "/health")]) /\
    Http.field "features" descriptor
    = Some (Http.JList
              [ Http.JStr "Futures market analysis";
                Http.JStr "Signal generation";
                Http.JStr "Integration with fks-app, fks-execution, fks-data" ]).
Proof.
  do 8 (split; [reflexivity|]).
  apply (root_body_independent_of_components world_full world_no_health);
    reflexivity.
Defined.

(** C8. Once the metrics route is bound, [GET /metrics] answers 200 with
    the rendered registry as its text and with the content type exactly
    [text/plain; version=0.0.4; charset=utf-8] (the media type already
    names a charset, so none is appended); the route is in the table with
    [include_in_schema] off, and the generated schema has no [/metrics]
    path (the health router not adding one of its own). *)
Theorem metrics_route_content_type (w : World) (s : State Globals) :
  boot w = Ready s ->
  metrics_bound w = true ->
  exists reg, _metrics_registry (globals s) = Some reg /\
    let resp := fst (serve s (Http.GET "/metrics")) in
    Http.status_code resp = 200 /\
    Http.header "content-type" resp
    = Some "text/plain; version=0.0.4; charset=utf-8" /\
    Http.content resp = Http.Content_text (Prometheus.generate_latest reg) /\
    metrics_route ∈ routes (app (globals s)) /\
    include_in_schema metrics_route = false /\
    (health_avoids "/metrics" w = true ->
     "/metrics" ∉ openapi_paths (app (globals s))).
Proof.
  intros Hboot Hb.
  destruct (boot_ready_inv w s Hboot) as [Hh Hm].
  destruct (boot_ready w Hh Hm) as (s' & Hboot' & Hroutes & _).
  rewrite Hboot in Hboot'. injection Hboot' as <-.
  pose proof (boot_registry w s Hboot Hb) as Hreg.
  exists build_info_registry. split; [exact Hreg|].
  rewrite (serve_metrics w s Hroutes _ Hb Hreg). cbn zeta.
  split; [reflexivity|]. split; [reflexivity|]. split; [reflexivity|].
  split; [|split; [reflexivity|]].
  - rewrite Hroutes. unfold route_table, metrics_part. rewrite Hb.
    apply elem_of_app. right. apply list_elem_of_here.
  - intros Ha Hin. unfold openapi_paths in Hin.
    apply dict_keys_elem in Hin as [Hin _].
    apply list_elem_of_fmap in Hin as (r & Hp & Hr).
    apply list_elem_of_filter in Hr as [Hs Hr]. rewrite Hroutes in Hr.
    unfold route_table, metrics_part in Hr. rewrite Hb in Hr.
    apply elem_of_app in Hr as [Hr|Hr].
    + cbn in Hr. repeat (apply elem_of_cons in Hr as [->|Hr]);
        try (apply elem_of_nil in Hr; contradiction); discriminate.
    + apply elem_of_app in Hr as [Hr|Hr].
      * apply list_elem_of_singleton in Hr as ->. discriminate.
      * apply elem_of_app in Hr as [Hr|Hr].
        -- symmetry in Hp. exact (health_part_paths w "/metrics" r Ha Hr Hp).
        -- apply list_elem_of_singleton in Hr as ->. discriminate.
Qed.

Lemma metrics_route_content_type_full :
  exists s, boot world_full = Ready s /\
    metrics_bound world_full = true /\
    exists reg, _metrics_registry (globals s) = Some reg /\
      let resp := fst (serve s (Http.GET "/metrics")) in
      Http.status_code resp = 200 /\
      Http.header "content-type" resp
      = Some "text/plain; version=0.0.4; charset=utf-8" /\
      Http.content resp = Http.Content_text (Prometheus.generate_latest reg) /\
      metrics_route ∈ routes (app (globals s)) /\
      include_in_schema metrics_route = false /\
      (health_avoids "/metrics" world_full = true ->
       "/metrics" ∉ openapi_paths (app (globals s))).
Proof.
  eexists. split; [reflexivity|]. split; [reflexivity|].
  apply (metrics_route_content_type world_full); reflexivity.
Defined.

Lemma port_in_range (port : Z) :
  0 < port <= 65535 ->
  (port <? 0) || (65535 <? port) = false /\ (port =? 0) = false.
Proof.
  intros H. split.
  - apply orb_false_intro; [apply Z.ltb_ge | apply Z.ltb_ge]; lia.
  - apply Z.eqb_neq. lia.
Qed.

Lemma main_listening (w : World) (environ : gmap string string) (port : Z) :
  health_decided w = true -> metrics_decided w = true ->
  int (getenv environ "SERVICE_PORT" "8015") = Some (Returns port) ->
  0 < port <= 65535 ->
  exists s, boot w = Ready s /\ main w environ = Listening "0.0.0.0" port s.
Proof.
  intros Hh Hm Hp Hrange.
  destruct (boot_ready w Hh Hm) as (s & Hboot & _).
  exists s. split; [exact Hboot|].
  unfold main, uvicorn_run. unfold boot in Hboot.
  destruct (load w) as [[e log]|s0]; [discriminate Hboot|].
  destruct (port_in_range port Hrange) as [Hout Hzero].
  rewrite Hp, Hboot, Hout, Hzero. reflexivity.
Qed.

Lemma main_listening_inv (w : World) (environ : gmap string string)
    (host : string) (port : Z) (s : State Globals) :
  main w environ = Listening host port s ->
  host = "0.0.0.0"
  /\ int (getenv environ "SERVICE_PORT" "8015") = Some (Returns port)
  /\ 0 < port <= 65535
  /\ boot w = Ready s.
Proof.
  unfold main, uvicorn_run, boot.
  destruct (load w) as [[e log]|s0]; [discriminate|].
  destruct (int _) as [[p|e]|]; [|discriminate|discriminate].
  destruct (startup s0) as [e log|s']; [discriminate|].
  destruct ((p <? 0) || (65535 <? p)) eqn:Hout; [discriminate|].
  destruct (p =? 0) eqn:Hzero; [discriminate|].
  intros H. injection H as <- <- <-.
  apply orb_false_elim in Hout as [Hlo Hhi].
  apply Z.ltb_ge in Hlo, Hhi. apply Z.eqb_neq in Hzero.
  repeat split; lia.
Qed.



(** C10. The registry the exposition is rendered from is created empty
    and, once the block has run, holds the [fks_build_info] gauge and
    nothing else: collecting it yields one metric family, and the body of
    [GET /metrics] declares one family, being exactly the HELP line, the
    TYPE line and the one sample line of that gauge. *)
Theorem metrics_single_family (w : World) (s : State Globals) :
  boot w = Ready s ->
  metrics_bound w = true ->
  Prometheus.new_CollectorRegistry = [] /\
  exists reg, _metrics_registry (globals s) = Some reg /\
    Prometheus.name <$> reg = ["fks_build_info"] /\
    Prometheus.m_name <$> Prometheus.collect reg = ["fks_build_info"] /\
    metrics_body s = Prometheus.generate_latest reg /\
    family_count (metrics_body s) = 1%nat /\
    metrics_body s
    = help_line +:+ Str.LF +:+ type_line +:+ Str.LF
      +:+ build_info_sample +:+ ".0" +:+ Str.LF.
Proof.
  intros Hboot Hb. split; [reflexivity|].
  destruct (boot_ready_inv w s Hboot) as [Hh Hm].
  destruct (boot_ready w Hh Hm) as (s' & Hboot' & Hroutes & _).
  rewrite Hboot in Hboot'. injection Hboot' as <-.
  pose proof (boot_registry w s Hboot Hb) as Hreg.
  exists build_info_registry. split; [exact Hreg|].
  unfold metrics_body. rewrite (serve_metrics w s Hroutes _ Hb Hreg).
  repeat split; vm_compute; reflexivity.
Qed.

Lemma metrics_single_family_full :
  exists s, boot world_full = Ready s /\
    metrics_bound world_full = true /\
    Prometheus.new_CollectorRegistry = [] /\
    exists reg, _metrics_registry (globals s) = Some reg /\
      Prometheus.name <$> reg = ["fks_build_info"] /\
      Prometheus.m_name <$> Prometheus.collect reg = ["fks_build_info"] /\
      metrics_body s = Prometheus.generate_latest reg /\
      family_count (metrics_body s) = 1%nat /\
      metrics_body s
      = help_line +:+ Str.LF +:+ type_line +:+ Str.LF
        +:+ build_info_sample +:+ ".0" +:+ Str.LF.
Proof.
  eexists. split; [reflexivity|]. split; [reflexivity|].
  apply (metrics_single_family world_full); reflexivity.
Defined.

(** ** Further properties of the script *)

Import Behaviour.

(** *** Text: stripping and decimal parsing *)

#[local] Arguments String.append !s1 s2 : simpl nomatch.

Lemma append_cons (x : ascii) (a b : string) :
  String x a +:+ b = String x (a +:+ b).
Proof. reflexivity. Qed.

Lemma append_assoc (a b c : string) : (a +:+ b) +:+ c = a +:+ (b +:+ c).
Proof.
  induction a as [|x a IH]; [reflexivity|].
  rewrite !append_cons, IH. reflexivity.
Qed.

Lemma rev_app_append (s t : string) :
  String.rev_app s t = String.rev s +:+ t.
Proof.
  unfold String.rev. revert t.
  induction s as [|a s IH]; intros t; [reflexivity|].
  cbn [String.rev_app].
  rewrite (IH (String a t)), (IH (String a EmptyString)), append_assoc.
  reflexivity.
Qed.

Lemma rev_cons (a : ascii) (s : string) :
  String.rev (String a s) = String.rev s +:+ String a EmptyString.
Proof. unfold String.rev at 1. cbn [String.rev_app]. apply rev_app_append. Qed.

Lemma rev_snoc (s : string) (a : ascii) :
  String.rev (s +:+ String a EmptyString) = String a (String.rev s).
Proof.
  induction s as [|b s IH]; [reflexivity|].
  rewrite append_cons, !rev_cons, IH. reflexivity.
Qed.

Lemma drop_while_snoc (p : ascii -> bool) (s : string) (a : ascii) :
  Str.drop_while p (s +:+ String a EmptyString)
  = match Str.drop_while p s with
    | EmptyString => if p a then EmptyString else String a EmptyString
    | kept => kept +:+ String a EmptyString
    end.
Proof.
  induction s as [|b s IH].
  - cbn. destruct (p a); reflexivity.
  - rewrite append_cons. cbn [Str.drop_while].
    destruct (p b); [exact IH | reflexivity].
Qed.

(** [rstrip] keeps a character exactly when something after it is kept or
    it is not in the set. *)
Lemma rstrip_rstrip_rec (p : ascii -> bool) (s : string) :
  Str.rstrip p s = rstrip_rec p s.
Proof.
  unfold Str.rstrip. induction s as [|a s IH]; [reflexivity|].
  rewrite rev_cons, drop_while_snoc. cbn [rstrip_rec]. rewrite <- IH.
  destruct (Str.drop_while p (String.rev s)) as [|b kept].
  - destruct (p a); reflexivity.
  - rewrite rev_snoc.
    destruct (String.rev (String b kept)) eqn:E; [|reflexivity].
    rewrite rev_cons in E. destruct (String.rev kept); discriminate E.
Qed.

(** Text with no character of the set is left alone, on both sides. *)
Lemma rstrip_none (p : ascii -> bool) (s : string) :
  all_chars (fun a => negb (p a)) s = true -> Str.rstrip p s = s.
Proof.
  rewrite rstrip_rstrip_rec. induction s as [|a s IH]; [reflexivity|].
  cbn. intros H. apply andb_prop in H as [Ha Hs]. rewrite (IH Hs).
  destruct s; [|reflexivity]. destruct (p a); [discriminate | reflexivity].
Qed.

Lemma lstrip_none (p : ascii -> bool) (s : string) :
  all_chars (fun a => negb (p a)) s = true -> Str.lstrip p s = s.
Proof.
  destruct s as [|a s]; [reflexivity|]. cbn. intros H.
  apply andb_prop in H as [Ha _]. destruct (p a); [discriminate | reflexivity].
Qed.

(** Stripping on the right never cuts into a prefix that ends in a
    character outside the set. *)
Lemma rstrip_keeps_prefix (p : ascii -> bool) (pre s : string) (a : ascii) :
  p a = false ->
  String.prefix (pre +:+ String a EmptyString) s = true ->
  String.prefix (pre +:+ String a EmptyString) (Str.rstrip p s) = true.
Proof.
  intros Ha. rewrite rstrip_rstrip_rec. revert s.
  induction pre as [|b pre IH]; intros [|c s]; cbn; try discriminate.
  - destruct (ascii_dec a c) as [<-|]; [|discriminate]. intros _.
    rewrite Ha. destruct (rstrip_rec p s); cbn;
      destruct (ascii_dec a a); congruence.
  - destruct (ascii_dec b c) as [<-|]; [|discriminate]. intros H.
    specialize (IH s H).
    destruct (rstrip_rec p s) as [|d kept].
    + destruct pre; discriminate IH.
    + cbn. destruct (ascii_dec b b); [exact IH | congruence].
Qed.

Lemma digit_pretty_char (x : N) :
  (x < 10)%N -> digit (pretty_N_char x) = Some (Z.of_N x).
Proof.
  intros Hx.
  assert (x = 0 \/ x = 1 \/ x = 2 \/ x = 3 \/ x = 4 \/ x = 5 \/ x = 6
          \/ x = 7 \/ x = 8 \/ x = 9)%N as H by lia.
  repeat (destruct H as [->|H]; [reflexivity|]). subst x. reflexivity.
Qed.

Lemma is_digit_pretty_char (x : N) : is_digit (pretty_N_char x) = true.
Proof.
  unfold pretty_N_char. destruct x as [|p]; [reflexivity|].
  repeat (destruct p as [p|p|]; try reflexivity).
Qed.

(** Parsing the digits stdpp prints for a positive number gives the
    number back. *)
Lemma digits_pretty_go (x : N) (s : string) (b : bool) :
  (0 < x)%N ->
  digits 0 b (pretty_N_go x s) = digits (Z.of_N x) true s.
Proof.
  revert s b. induction (N.lt_wf_0 x) as [x _ IH]. intros s b Hx.
  rewrite pretty_N_go_step by exact Hx.
  assert (Hmod : (x mod 10 < 10)%N) by (apply N.mod_lt; lia).
  assert (Hdm : x = (10 * (x / 10) + x mod 10)%N) by (apply N.div_mod; lia).
  destruct (decide (x / 10 = 0)%N) as [Hz|Hnz].
  - rewrite Hz, pretty_N_go_0. cbn [digits].
    rewrite (digit_pretty_char _ Hmod). f_equal. lia.
  - rewrite IH; [| apply N.div_lt; lia | lia].
    cbn [digits]. rewrite (digit_pretty_char _ Hmod). f_equal. lia.
Qed.

Lemma pretty_go_digits (x : N) (s : string) :
  all_chars is_digit s = true -> all_chars is_digit (pretty_N_go x s) = true.
Proof.
  revert s. induction (N.lt_wf_0 x) as [x _ IH]. intros s Hs.
  destruct (decide (0 < x)%N) as [Hx|Hx].
  - rewrite pretty_N_go_step by exact Hx. apply IH; [apply N.div_lt; lia|].
    cbn. rewrite is_digit_pretty_char. exact Hs.
  - assert (x = 0%N) as -> by lia. exact Hs.
Qed.

Lemma digit_not_space (a : ascii) :
  is_digit a = true -> negb (is_space a) = true.
Proof.
  destruct a as [[] [] [] [] [] [] [] []]; vm_compute; congruence.
Qed.

Lemma all_chars_impl (p q : ascii -> bool) (s : string) :
  (forall a, p a = true -> q a = true) ->
  all_chars p s = true -> all_chars q s = true.
Proof.
  intros Hpq. induction s as [|a s IH]; [reflexivity|].
  cbn. intros H. apply andb_prop in H as [Ha Hs].
  rewrite (Hpq a Ha), (IH Hs). reflexivity.
Qed.

(** On text made of digits only, [int_ascii] is the plain decimal
    reading. *)
Lemma int_of_digits (s : string) :
  all_chars is_digit s = true -> int_ascii s = digits 0 false s.
Proof.
  intros H. unfold int_ascii.
  pose proof (all_chars_impl _ _ s digit_not_space H) as Hs.
  rewrite (lstrip_none _ _ Hs), (rstrip_none _ _ Hs).
  destruct s as [|c s]; [reflexivity|].
  cbn in H. apply andb_prop in H as [Hc _].
  destruct c as [[] [] [] [] [] [] [] []]; try discriminate Hc; reflexivity.
Qed.

Lemma digit_is_ascii (a : ascii) :
  is_digit a = true -> (nat_of_ascii a <? 128)%nat = true.
Proof.
  destruct a as [[] [] [] [] [] [] [] []]; vm_compute; congruence.
Qed.

Lemma digits_ascii_only (s : string) :
  all_chars is_digit s = true -> ascii_only s = true.
Proof.
  induction s as [|a s IH]; [reflexivity|]. cbn [ascii_only all_chars].
  intros H. apply andb_prop in H as [Ha Hs].
  rewrite (digit_is_ascii a Ha), (IH Hs). reflexivity.
Qed.

(** A number below [10^k] is printed with at most [k] digits. *)
Lemma pretty_go_length (k : nat) (x : N) (s : string) :
  (x < 10 ^ N.of_nat k)%N ->
  (String.length (pretty_N_go x s) <= k + String.length s)%nat.
Proof.
  revert x s. induction k as [|k IH]; intros x s Hx.
  - assert (x = 0%N) as -> by (cbn in Hx; lia). rewrite pretty_N_go_0. lia.
  - destruct (decide (0 < x)%N) as [Hpos|Hz].
    + rewrite pretty_N_go_step by exact Hpos.
      etransitivity; [apply IH|cbn; lia].
      rewrite Nat2N.inj_succ, N.pow_succ_r' in Hx.
      apply N.Div0.div_lt_upper_bound. exact Hx.
    + assert (x = 0%N) as -> by lia. rewrite pretty_N_go_0. lia.
Qed.

(** [int(str(n))] is [n] for a port number [n]. *)
Lemma int_pretty (n : Z) :
  0 <= n <= 65535 -> int (pretty n) = Some (Returns n).
Proof.
  intros Hn. destruct n as [|p|p]; [reflexivity| |lia].
  change (pretty (Z.pos p)) with (pretty_N_go (N.pos p) EmptyString).
  assert (Hd : all_chars is_digit (pretty_N_go (N.pos p) EmptyString) = true)
    by (apply pretty_go_digits; reflexivity).
  unfold int, int_modelled. rewrite (digits_ascii_only _ Hd).
  pose proof (pretty_go_length 5 (N.pos p) EmptyString) as Hlen.
  cbn [String.length] in Hlen.
  assert (Hshort : (String.length (pretty_N_go (N.pos p) EmptyString) <=? 4300)%nat = true)
    by (apply Nat.leb_le; etransitivity; [apply Hlen; cbn; lia | lia]).
  rewrite Hshort. cbn [andb].
  rewrite int_of_digits by exact Hd.
  rewrite digits_pretty_go by lia. reflexivity.
Qed.

(** *** The process: when it starts, what it logs, how it is configured *)

Lemma load_log (w : World) (s : State Globals) :
  load w = inr s -> records s = import_log w.
Proof.
  intros Hl. unfold import_log. world_cases w; try discriminate Hl.
  all: injection Hl as <-; reflexivity.
Qed.

Lemma load_app (w : World) (s : State Globals) :
  load w = inr s ->
  user_middleware (app (globals s)) = [permissive_cors]
  /\ on_startup (app (globals s)) = [hook_startup_event]
  /\ title (app (globals s)) = title create_app
  /\ description (app (globals s)) = description create_app
  /\ version (app (globals s)) = "1.0.0".
Proof.
  intros Hl. world_cases w; try discriminate Hl.
  all: injection Hl as <-; repeat split.
Qed.

(** Starting a loaded module runs the one startup hook: it logs its two
    lines and changes nothing else. *)
Lemma startup_loaded (w : World) (s : State Globals) :
  load w = inr s ->
  startup s = Ready {| globals := globals s;
                       records := records s ++ startup_log |}.
Proof.
  intros Hl. destruct (load_app w s Hl) as (_ & Hhooks & _).
  unfold startup. rewrite Hhooks. destruct s as [g log].
  cbv -[Datatypes.app]. rewrite <- app_assoc. reflexivity.
Qed.

Lemma boot_load (w : World) (s : State Globals) :
  boot w = Ready s ->
  exists s0, load w = inr s0
    /\ s = {| globals := globals s0; records := records s0 ++ startup_log |}.
Proof.
  unfold boot. destruct (load w) as [[e log]|s0] eqn:Hl; [discriminate|].
  rewrite (startup_loaded w s0 Hl). intros H. injection H as <-.
  exists s0. split; reflexivity.
Qed.

Lemma boot_metrics_escapes (w : World) (st : MetricsStep) (e : PyExc) :
  health_decided w = true ->
  first_raise (metrics_fault w) metrics_block = Some (st, e) ->
  isinstance e Exception = false ->
  boot w = Crashed e (health_log w).
Proof.
  intros Hh Hf He. unfold health_log.
  world_cases w; try discriminate Hh; try discriminate Hf.
  all: injection Hf as _ <-; try discriminate He; try congruence; reflexivity.
Qed.

(** X1. A process is ready only if both optional components were decided:
    the health import returned a router or raised an ImportError, and the
    first statement of the metrics block to raise, if any, raised an
    Exception.  No exception that lines 25 and 65 do not catch is survived
    by startup. *)
Theorem ready_only_if_components_decided (w : World) (s : State Globals) :
  boot w = Ready s ->
  health_decided w = true /\ metrics_decided w = true.
Proof. exact (boot_ready_inv w s). Qed.

Lemma ready_only_if_components_decided_bare :
  exists s, boot world_bare = Ready s /\
    health_decided world_bare = true /\ metrics_decided world_bare = true.
Proof.
  eexists. split; [reflexivity|].
  eapply (ready_only_if_components_decided world_bare). reflexivity.
Defined.

(** X2. What line 65 does not catch ends startup: when a statement of the
    metrics block raises something that is not an Exception (a
    KeyboardInterrupt, a SystemExit), the process ends with that exception
    and no metrics warning; the log holds only what the health import
    wrote. *)
Theorem metrics_uncaught_exception_ends_startup (w : World)
    (st : MetricsStep) (e : PyExc) :
  health_decided w = true ->
  first_raise (metrics_fault w) metrics_block = Some (st, e) ->
  isinstance e Exception = false ->
  boot w = Crashed e (health_log w)
  /\ metrics_warning e ∉ health_log w.
Proof.
  intros Hh Hf He. split; [exact (boot_metrics_escapes w st e Hh Hf He)|].
  unfold health_log. destruct (health_module w).
  - apply not_elem_of_nil.
  - intros Hin. apply list_elem_of_singleton in Hin. discriminate Hin.
Qed.

Lemma metrics_uncaught_exception_interrupted :
  health_decided world_interrupted = true /\
  first_raise (metrics_fault world_interrupted) metrics_block
  = Some (call_Gauge, interrupt) /\
  isinstance interrupt Exception = false /\
  boot world_interrupted = Crashed interrupt (health_log world_interrupted) /\
  metrics_warning interrupt ∉ health_log world_interrupted.
Proof.
  split; [reflexivity|]. split; [reflexivity|]. split; [reflexivity|].
  apply (metrics_uncaught_exception_ends_startup world_interrupted
           call_Gauge interrupt); reflexivity.
Defined.

(** X3. The log of a ready process, in order: the health warning if the
    import was caught; one record for the metrics block, the info line if
    it ran through and otherwise the warning with the exception's text;
    then the two lines of the startup hook.  Nothing else is logged. *)
Theorem ready_log (w : World) (s : State Globals) :
  boot w = Ready s ->
  records s = import_log w ++ startup_log.
Proof.
  intros Hb. destruct (boot_load w s Hb) as (s0 & Hl & ->).
  cbn. rewrite (load_log w s0 Hl). reflexivity.
Qed.

Lemma ready_log_bare :
  exists s, boot world_bare = Ready s /\
    records s = import_log world_bare ++ startup_log.
Proof.
  eexists. split; [reflexivity|].
  apply (ready_log world_bare). reflexivity.
Defined.

(** X4. Run as a script with an ASCII port text that is not a decimal
    number (the variable set to the empty text, for one, which the default
    does not replace), the process ends with the ValueError of [int],
    which quotes the text, after the module was loaded and before the
    server starts: the log holds the import's records and not the startup
    hook's lines, and nothing listens. *)
Theorem invalid_port_exits_before_startup (w : World)
    (environ : gmap string string) (text : string) :
  health_decided w = true ->
  metrics_decided w = true ->
  getenv environ "SERVICE_PORT" "8015" = text ->
  int_modelled text = true ->
  int_ascii text = None ->
  main w environ = Exited (int_error text) (import_log w)
  /\ exc_class (int_error text) = ValueError
  /\ exc_str (int_error text)
     = "invalid literal for int() with base 10: " +:+ substring 0 200 (repr text).
Proof.
  intros Hh Hm Ht Hmod Hp. split; [|split; reflexivity].
  destruct (boot_ready w Hh Hm) as (s & Hb & _).
  destruct (boot_load w s Hb) as (s0 & Hl & _).
  unfold main, int. rewrite Hl, Ht, Hmod, Hp, (load_log w s0 Hl). reflexivity.
Qed.

Lemma invalid_port_blank :
  health_decided world_full = true /\
  metrics_decided world_full = true /\
  getenv environ_blank_port "SERVICE_PORT" "8015" = EmptyString /\
  int_modelled EmptyString = true /\
  int_ascii EmptyString = None /\
  main world_full environ_blank_port
  = Exited (int_error EmptyString) (import_log world_full) /\
  exc_class (int_error EmptyString) = ValueError /\
  exc_str (int_error EmptyString)
  = "invalid literal for int() with base 10: " +:+ substring 0 200 (repr EmptyString).
Proof.
  split; [reflexivity|]. split; [reflexivity|]. split; [reflexivity|].
  split; [reflexivity|]. split; [reflexivity|].
  apply (invalid_port_exits_before_startup world_full environ_blank_port
           EmptyString); reflexivity.
Defined.

(** X5. Run as a script with [SERVICE_PORT] set to the decimal text of a
    valid port number, the service listens on that port, on all
    interfaces. *)
Theorem listens_on_any_valid_port (w : World) (environ : gmap string string)
    (n : Z) :
  0 < n <= 65535 ->
  health_decided w = true ->
  metrics_decided w = true ->
  environ !! "SERVICE_PORT" = Some (pretty n) ->
  exists s, main w environ = Listening "0.0.0.0" n s.
Proof.
  intros Hn Hh Hm Hv.
  destruct (main_listening w environ n Hh Hm) as (s & _ & Hs).
  - unfold getenv. rewrite Hv. cbn [default]. apply int_pretty. lia.
  - exact Hn.
  - exists s. exact Hs.
Qed.

Lemma listens_on_port_8080 :
  0 < 8080 <= 65535 /\
  health_decided world_bare = true /\
  metrics_decided world_bare = true /\
  environ_port 8080 !! "SERVICE_PORT" = Some (pretty 8080) /\
  exists s, main world_bare (environ_port 8080) = Listening "0.0.0.0" 8080 s.
Proof.
  split; [lia|]. split; [reflexivity|]. split; [reflexivity|].
  split; [reflexivity|].
  apply (listens_on_any_valid_port world_bare (environ_port 8080) 8080);
    [lia | reflexivity | reflexivity | reflexivity].
Defined.

(** X6. The script serves the application an ASGI server would get by
    importing the module: whenever the script listens, the state it serves
    from is the ready state of the imported module, and it listens on
    0.0.0.0. *)
Theorem script_serves_imported_app (w : World) (environ : gmap string string)
    (host : string) (port : Z) (s : State Globals) :
  main w environ = Listening host port s ->
  boot w = Ready s /\ host = "0.0.0.0".
Proof.
  intros Hm.
  destruct (main_listening_inv w environ host port s Hm) as (Hh & _ & _ & Hb).
  split; assumption.
Qed.

Lemma script_serves_imported_app_default :
  exists s, main world_full environ_empty = Listening "0.0.0.0" 8015 s /\
    boot world_full = Ready s /\ "0.0.0.0" = "0.0.0.0".
Proof.
  eexists. split; [reflexivity|].
  apply (script_serves_imported_app world_full environ_empty "0.0.0.0" 8015).
  reflexivity.
Defined.

(** *** Requests *)

Lemma ready_routes (w : World) (s : State Globals) :
  boot w = Ready s -> routes (app (globals s)) = route_table w.
Proof.
  intros Hb. destruct (boot_ready_inv w s Hb) as [Hh Hm].
  destruct (boot_ready w Hh Hm) as (s' & Hb' & Hroutes & _).
  rewrite Hb in Hb'. injection Hb' as <-. exact Hroutes.
Qed.

(** X7. The paths of the generated schema of a ready process are the
    paths of the in-schema routes of the health router and the root path,
    each once, in the order they were first bound.  The script's metrics
    route and the framework's own pages add nothing to it: a path is in
    the schema exactly when it is the root path or the path of an
    in-schema route of the health router. *)
Theorem schema_lists_health_and_root (w : World) (s : State Globals) :
  boot w = Ready s ->
  openapi_paths (app (globals s)) = dict_keys [] (health_schema_paths w ++ ["/"])
  /\ forall p, p ∈ openapi_paths (app (globals s))
               <-> p ∈ health_schema_paths w \/ p = "/".
Proof.
  intros Hb.
  assert (H : openapi_paths (app (globals s))
              = dict_keys [] (health_schema_paths w ++ ["/"])).
  { unfold openapi_paths, health_schema_paths.
    rewrite (ready_routes w s Hb). unfold route_table, metrics_part.
    rewrite !filter_app, !fmap_app.
    destruct (metrics_bound w); reflexivity. }
  split; [exact H|]. intros p. rewrite H, dict_keys_elem, elem_of_app.
  rewrite list_elem_of_singleton. split.
  - intros [Hp _]. exact Hp.
  - intros Hp. split; [exact Hp | apply not_elem_of_nil].
Qed.

Lemma schema_lists_health_and_root_full :
  exists s, boot world_full = Ready s /\
    openapi_paths (app (globals s))
    = dict_keys [] (health_schema_paths world_full ++ ["/"])
    /\ forall p, p ∈ openapi_paths (app (globals s))
                 <-> p ∈ health_schema_paths world_full \/ p = "/".
Proof.
  eexists. split; [reflexivity|].
  apply (schema_lists_health_and_root world_full). reflexivity.
Defined.

Lemma matches_partial (r : Route) (m : string) :
  existsb (String.eqb m) (methods r) = false ->
  matches r (request m (route_path r)) = PARTIAL.
Proof.
  intros H. unfold matches, request. cbn.
  rewrite String.eqb_refl, H. reflexivity.
Qed.

Lemma not_get (m : string) :
  m <> "GET" -> existsb (String.eqb m) ["GET"] = false.
Proof.
  intros H. cbn. apply String.eqb_neq in H. rewrite H. reflexivity.
Qed.

(** X8. The script's two endpoints answer GET only.  Any other method
    (HEAD and OPTIONS included, as far as routing goes) on [/] gets 405
    Method Not Allowed with [allow: GET]; so does any other method on
    [/metrics] once that route is bound.  The health router is taken not
    to have a route at the path in question. *)
Theorem only_get_is_allowed (w : World) (s : State Globals) (m : string) :
  boot w = Ready s ->
  m <> "GET" ->
  (health_avoids "/" w = true ->
   fst (serve s (request m "/")) = get_only) /\
  (metrics_bound w = true -> health_avoids "/metrics" w = true ->
   fst (serve s (request m "/metrics")) = get_only).
Proof.
  intros Hb Hm. pose proof (ready_routes w s Hb) as Hr.
  pose proof (not_get m Hm) as Hget.
  split.
  - intros Ha. unfold serve, Routing.route. rewrite Hr.
    unfold route_table. rewrite !(assoc_L (++)).
    rewrite <- (assoc_L (++) _ (health_part w)).
    rewrite scan_skip.
    + rewrite scan_skip by (apply health_part_misses; exact Ha).
      cbn [scan].
      change (request m "/") with (request m (route_path root_route)).
      rewrite (matches_partial root_route m Hget). reflexivity.
    + unfold metrics_part. destruct (metrics_bound w); repeat constructor.
  - intros Hbound Ha. unfold serve, Routing.route. rewrite Hr.
    unfold route_table, metrics_part. rewrite Hbound.
    rewrite scan_skip by repeat constructor.
    cbn [Datatypes.app scan].
    change (request m "/metrics") with (request m (route_path metrics_route)).
    rewrite (matches_partial metrics_route m Hget).
    rewrite scan_skip by (apply health_part_misses; exact Ha).
    reflexivity.
Qed.

Lemma only_get_is_allowed_post :
  exists s, boot world_full = Ready s /\
    "POST" <> "GET" /\
    (health_avoids "/" world_full = true ->
     fst (serve s (request "POST" "/")) = get_only) /\
    (metrics_bound world_full = true ->
     health_avoids "/metrics" world_full = true ->
     fst (serve s (request "POST" "/metrics")) = get_only).
Proof.
  eexists. split; [reflexivity|]. split; [discriminate|].
  apply (only_get_is_allowed world_full); [reflexivity | discriminate].
Defined.

Lemma prefix_append (a p x : string) :
  String.prefix a p = true -> String.prefix a (p +:+ x) = true.
Proof.
  revert p. induction a as [|c a IH]; intros p H; [destruct (p +:+ x); reflexivity|].
  destruct p as [|d p]; [discriminate H|]. cbn in *.
  destruct (ascii_dec c d); [apply IH; exact H | discriminate H].
Qed.

Lemma path_mismatch (a q p : string) :
  String.prefix a q = false -> String.prefix a p = true ->
  String.eqb q p = false.
Proof.
  intros Hq Hp. apply String.eqb_neq. intros ->. congruence.
Qed.

(** The path [redirect_slashes] tries for a path under [/health] is under
    [/health] too. *)
Lemma slash_variant_under_health (p : string) :
  String.prefix "/health" p = true ->
  String.prefix "/health" (slash_variant p) = true.
Proof.
  intros Hp. unfold slash_variant. destruct (Str.ends_with "/" p).
  - apply (rstrip_keeps_prefix is_slash "/healt" p "h"); [reflexivity | exact Hp].
  - apply prefix_append. exact Hp.
Qed.

Lemma outside_health_misses (l : list Route) (m q : string) :
  Forall (fun r => String.prefix "/health" (route_path r) = false) l ->
  String.prefix "/health" q = true ->
  Forall (fun r => matches r (request m q) = NONE) l.
Proof.
  intros Hl Hq. induction Hl as [|r l Hr _ IH]; constructor; [|exact IH].
  apply matches_other_path. exact (path_mismatch "/health" _ q Hr Hq).
Qed.

(** A request no route matches, nor its slash variant, is not found. *)
Lemma route_not_found (l : list Route) (m p : string) :
  Forall (fun r => matches r (request m p) = NONE) l ->
  Forall (fun r => matches r (request m (slash_variant p)) = NONE) l ->
  Routing.route l (request m p) = NotFound.
Proof.
  intros H H'. unfold Routing.route, request in *.
  rewrite <- (app_nil_r l) at 1. rewrite (scan_skip l [] _ None H).
  cbn [scan Http.path Http.method].
  rewrite (any_match_none l _ H'). rewrite andb_false_r. reflexivity.
Qed.

Lemma script_routes_outside_health (w : World) :
  Forall (fun r => String.prefix "/health" (route_path r) = false)
    (routes create_app ++ metrics_part w).
Proof. unfold metrics_part. destruct (metrics_bound w); repeat constructor. Qed.

(** X9. Graceful degradation of the health routes: when the health import
    failed, every request to a path under [/health], whatever the method,
    gets the router's 404 Not Found. *)
Theorem health_paths_not_found_when_absent (w : World) (s : State Globals)
    (e : PyExc) (m p : string) :
  health_module w = Raises e ->
  boot w = Ready s ->
  String.prefix "/health" p = true ->
  fst (serve s (request m p)) = not_found.
Proof.
  intros Hh Hb Hp. pose proof (ready_routes w s Hb) as Hr.
  assert (Hout : Forall (fun r => String.prefix "/health" (route_path r) = false)
                   (route_table w)).
  { unfold route_table, health_part. rewrite Hh. cbn [Datatypes.app].
    rewrite (assoc_L (++)). apply Forall_app. split.
    - apply script_routes_outside_health.
    - repeat constructor. }
  unfold serve. rewrite Hr, route_not_found; [reflexivity| |].
  - exact (outside_health_misses _ m p Hout Hp).
  - exact (outside_health_misses _ m _ Hout (slash_variant_under_health p Hp)).
Qed.

Lemma health_paths_not_found_no_health :
  health_module world_no_health = Raises module_not_found /\
  String.prefix "/health" "/health/ready" = true /\
  exists s, boot world_no_health = Ready s /\
    fst (serve s (request "GET" "/health/ready")) = not_found.
Proof.
  split; [reflexivity|]. split; [reflexivity|].
  eexists. split; [reflexivity|].
  apply (health_paths_not_found_when_absent world_no_health _
           module_not_found "GET" "/health/ready"); reflexivity.
Defined.

Lemma scan_inl_app (l l' : list Route) (req : Http.Request)
    (p : option Route) (r : Route) :
  scan l req p = inl r -> scan (l ++ l') req p = inl r.
Proof.
  revert p. induction l as [|a l IH]; intros p; cbn; [discriminate|].
  destruct (matches a req); auto.
Qed.

Lemma scan_included (t : list string) (l : list Route) (req : Http.Request)
    (p p' : option Route) (r : Route) :
  scan l req p = inl r ->
  scan (included t <$> l) req p' = inl (included t r).
Proof.
  revert p p'. induction l as [|a l IH]; intros p p'; cbn; [discriminate|].
  change (matches (included t a) req) with (matches a req).
  destruct (matches a req).
  - apply IH.
  - apply IH.
  - intros H. injection H as <-. reflexivity.
Qed.

(** X10. When the health router loaded, a request under [/health] that
    one of its routes matches in full is answered by the first such
    route, as the router alone would choose it: the script's own routes
    and the framework's do not get in its way. *)
Theorem health_routes_are_served (w : World) (s : State Globals)
    (router : APIRouter) (req : Http.Request) (r : Route)
    (reply : Http.Response) :
  health_module w = Returns router ->
  boot w = Ready s ->
  String.prefix "/health" (Http.path req) = true ->
  scan (router_routes router) req None = inl r ->
  reply_of r = Some reply ->
  fst (serve s req) = reply.
Proof.
  intros Hh Hb Hp Hscan Hreply. pose proof (ready_routes w s Hb) as Hr.
  unfold serve, Routing.route. rewrite Hr.
  unfold route_table, health_part. rewrite Hh.
  rewrite (assoc_L (++)). destruct req as [m p]. cbn in Hp.
  rewrite scan_skip
    by exact (outside_health_misses _ m p (script_routes_outside_health w) Hp).
  rewrite (scan_inl_app _ _ _ _ _ (scan_included ["health"] _ _ None None r Hscan)).
  unfold reply_of in Hreply. cbn [endpoint included].
  destruct (endpoint r); try discriminate Hreply.
  injection Hreply as ->. reflexivity.
Qed.

Lemma health_routes_are_served_full :
  exists s r reply,
    health_module world_full = Returns sample_health_router /\
    boot world_full = Ready s /\
    String.prefix "/health" (Http.path (Http.GET "/health")) = true /\
    scan (router_routes sample_health_router) (Http.GET "/health") None = inl r /\
    reply_of r = Some reply /\
    fst (serve s (Http.GET "/health")) = reply.
Proof.
  eexists. eexists. eexists.
  split; [reflexivity|]. split; [reflexivity|]. split; [reflexivity|].
  split; [reflexivity|]. split; [reflexivity|].
  eapply (health_routes_are_served world_full _ sample_health_router
            (Http.GET "/health")); reflexivity.
Defined.

Lemma ready_app (w : World) (s : State Globals) :
  boot w = Ready s ->
  user_middleware (app (globals s)) = [permissive_cors]
  /\ on_startup (app (globals s)) = [hook_startup_event]
  /\ title (app (globals s)) = title create_app
  /\ description (app (globals s)) = description create_app
  /\ version (app (globals s)) = "1.0.0".
Proof.
  intros Hb. destruct (boot_load w s Hb) as (s0 & Hl & ->).
  exact (load_app w s0 Hl).
Qed.

(** X11. The service reports one identity everywhere: the [service] and
    [version] fields of the body of [GET /] are the label values of the
    build-info gauge, in the order of its label names, and the version is
    also the application's own version. *)
Theorem identity_reported_consistently (w : World) (s : State Globals) :
  boot w = Ready s ->
  metrics_bound w = true ->
  health_avoids "/" w = true ->
  exists svc ver body gauge,
    Http.content (fst (serve s (Http.GET "/"))) = Http.Content_json body /\
    Http.field "service" body = Some (Http.JStr svc) /\
    Http.field "version" body = Some (Http.JStr ver) /\
    version (app (globals s)) = ver /\
    _metrics_registry (globals s) = Some [gauge] /\
    Prometheus.labelnames gauge = ["service"; "version"] /\
    Prometheus.metrics gauge = [([svc; ver], 1)].
Proof.
  intros Hb Hbound Ha.
  destruct (ready_app w s Hb) as (_ & _ & _ & _ & Hver).
  eexists _, _, _, _.
  rewrite (serve_root w s (ready_routes w s Hb) Ha).
  split; [reflexivity|]. split; [reflexivity|]. split; [reflexivity|].
  split; [exact Hver|]. split; [exact (boot_registry w s Hb Hbound)|].
  split; reflexivity.
Qed.

Lemma identity_reported_consistently_full :
  exists s, boot world_full = Ready s /\
    metrics_bound world_full = true /\
    health_avoids "/" world_full = true /\
    exists svc ver body gauge,
      Http.content (fst (serve s (Http.GET "/"))) = Http.Content_json body /\
      Http.field "service" body = Some (Http.JStr svc) /\
      Http.field "version" body = Some (Http.JStr ver) /\
      version (app (globals s)) = ver /\
      _metrics_registry (globals s) = Some [gauge] /\
      Prometheus.labelnames gauge = ["service"; "version"] /\
      Prometheus.metrics gauge = [([svc; ver], 1)].
Proof.
  eexists. split; [reflexivity|]. split; [reflexivity|]. split; [reflexivity|].
  apply (identity_reported_consistently world_full); reflexivity.
Defined.

(** X12. Whichever optional components load, the application a ready
    process serves has the one middleware the script adds, the permissive
    CORS policy (all origins, methods and headers, credentials allowed),
    and the title, description and version it was created with: binding
    routes changes none of them. *)
Theorem app_configuration_fixed (w : World) (s : State Globals) :
  boot w = Ready s ->
  user_middleware (app (globals s)) = [permissive_cors]
  /\ title (app (globals s)) = "FKS Futures Trading Service"
  /\ description (app (globals s))
     = "Futures market analysis and signal generation for CME Group futures contracts"
  /\ version (app (globals s)) = "1.0.0".
Proof.
  intros Hb. destruct (ready_app w s Hb) as (Hm & _ & Ht & Hd & Hv).
  repeat split; assumption.
Qed.

Lemma app_configuration_fixed_bare :
  exists s, boot world_bare = Ready s /\
    user_middleware (app (globals s)) = [permissive_cors]
    /\ title (app (globals s)) = "FKS Futures Trading Service"
    /\ description (app (globals s))
       = "Futures market analysis and signal generation for CME Group futures contracts"
    /\ version (app (globals s)) = "1.0.0".
Proof.
  eexists. split; [reflexivity|].
  apply (app_configuration_fixed world_bare). reflexivity.
Defined.

(** X13. [GET /metrics] never answers with a server error: in a ready
    process it is 200 when the decorator on line 58 had run, whatever
    happened after it, and 404 otherwise.  The health router is taken not
    to claim [/metrics] or [/metrics/]. *)
Theorem metrics_status_200_or_404 (w : World) (s : State Globals) :
  boot w = Ready s ->
  health_avoids "/metrics" w = true ->
  health_avoids "/metrics/" w = true ->
  Http.status_code (fst (serve s (Http.GET "/metrics")))
  = if metrics_bound w then 200 else 404.
Proof.
  intros Hb Ha Ha'. pose proof (ready_routes w s Hb) as Hr.
  destruct (metrics_bound w) eqn:Hbound.
  - rewrite (serve_metrics w s Hr _ Hbound (boot_registry w s Hb Hbound)).
    reflexivity.
  - rewrite (serve_metrics_unbound w s Hr Hbound Ha Ha'). reflexivity.
Qed.

Lemma metrics_status_200_or_404_bare :
  health_avoids "/metrics" world_bare = true /\
  health_avoids "/metrics/" world_bare = true /\
  exists s, boot world_bare = Ready s /\
    Http.status_code (fst (serve s (Http.GET "/metrics")))
    = if metrics_bound world_bare then 200 else 404.
Proof.
  split; [reflexivity|]. split; [reflexivity|].
  eexists. split; [reflexivity|].
  apply (metrics_status_200_or_404 world_bare); reflexivity.
Defined.

(** X14. The answer to [GET /metrics] does not depend on the health
    component: in any two runs that bound the metrics route it is the same
    response, whether or not the health router loaded, and whatever its
    routes are. *)
Theorem metrics_unaffected_by_health (w1 w2 : World) (s1 s2 : State Globals) :
  boot w1 = Ready s1 -> boot w2 = Ready s2 ->
  metrics_bound w1 = true -> metrics_bound w2 = true ->
  fst (serve s1 (Http.GET "/metrics")) = fst (serve s2 (Http.GET "/metrics")).
Proof.
  intros Hb1 Hb2 Hm1 Hm2.
  rewrite (serve_metrics w1 s1 (ready_routes w1 s1 Hb1) _ Hm1
             (boot_registry w1 s1 Hb1 Hm1)).
  rewrite (serve_metrics w2 s2 (ready_routes w2 s2 Hb2) _ Hm2
             (boot_registry w2 s2 Hb2 Hm2)).
  reflexivity.
Qed.

Lemma metrics_unaffected_by_health_samples :
  exists s1 s2, boot world_full = Ready s1 /\ boot world_no_health = Ready s2 /\
    metrics_bound world_full = true /\ metrics_bound world_no_health = true /\
    fst (serve s1 (Http.GET "/metrics")) = fst (serve s2 (Http.GET "/metrics")).
Proof.
  eexists. eexists. split; [reflexivity|]. split; [reflexivity|].
  split; [reflexivity|]. split; [reflexivity|].
  apply (metrics_unaffected_by_health world_full world_no_health);
    reflexivity.
Defined.


Lemma prefix_refl (a : string) : String.prefix a a = true.
Proof.
  induction a as [|x a IH]; [reflexivity|]. cbn.
  destruct (ascii_dec x x); [exact IH | congruence].
Qed.











(** X16. Order of registration decides who answers [/]: the health router
    is included (line 70) before the root route is added (line 80), so
    when a route of the health router matches a request to [/] in full,
    that route answers it and the script's root endpoint does not. *)
Theorem health_route_at_root_answers_first (w : World) (s : State Globals)
    (router : APIRouter) (m : string) (r : Route) (reply : Http.Response) :
  health_module w = Returns router ->
  boot w = Ready s ->
  scan (router_routes router) (request m "/") None = inl r ->
  reply_of r = Some reply ->
  fst (serve s (request m "/")) = reply.
Proof.
  intros Hh Hb Hscan Hreply. pose proof (ready_routes w s Hb) as Hr.
  unfold serve, Routing.route. rewrite Hr.
  unfold route_table, health_part. rewrite Hh.
  rewrite (assoc_L (++)).
  rewrite scan_skip
    by (unfold metrics_part; destruct (metrics_bound w); repeat constructor).
  rewrite (scan_inl_app _ _ _ _ _ (scan_included ["health"] _ _ None None r Hscan)).
  unfold reply_of in Hreply. cbn [endpoint included].
  destruct (endpoint r); try discriminate Hreply.
  injection Hreply as ->. reflexivity.
Qed.

Lemma health_route_at_root_shadowing :
  exists s router r reply,
    health_module world_shadowing = Returns router /\
    boot world_shadowing = Ready s /\
    scan (router_routes router) (request "GET" "/") None = inl r /\
    reply_of r = Some reply /\
    fst (serve s (request "GET" "/")) = reply /\
    Http.content reply <> Http.Content_json descriptor.
Proof.
  eexists. eexists. eexists. eexists.
  split; [reflexivity|]. split; [reflexivity|]. split; [reflexivity|].
  split; [reflexivity|]. split; [|discriminate].
  eapply (health_route_at_root_answers_first world_shadowing); reflexivity.
Defined.
